(** * SAM 3D Objects front-ends: [app.py] and [handler.py]

    The repository holds two request front-ends around an external
    3D-reconstruction model: the Gradio callback [process] (app.py) and the
    RunPod job function [handler] (handler.py).  Both are embedded here as
    programs of a small state-and-exception monad over a world made of the
    Python global [model], the file system, the opaque state of the external
    collaborators and a trace of the library calls performed. *)

From Stdlib Require Import ZArith NArith List String Ascii Lia.
From Stdlib.Strings Require Import Byte.
From stdpp Require Import gmap strings list fin_maps pretty.

Local Open Scope string_scope.

(** ** Python exceptions and results *)

(** An instance of Python's [Exception]: its class name and [str(e)].
    Interpreter-exit signals ([KeyboardInterrupt], [SystemExit]), which are
    not instances of [Exception], are outside the model. *)
Record exn := Exn { exn_class : string; exn_str : string }.

Inductive Res (A : Type) : Type :=
| Ok (a : A)
| Raise (e : exn).
Arguments Ok {A} a.
Arguments Raise {A} e.

(** ** The standard library's [base64] *)

Module Base64.

Definition BASE64_PAD : ascii := "="%char.

Definition alphabet : string :=
  "ABCDEFGHIJKLMNOPQRSTUVWXYZabcdefghijklmnopqrstuvwxyz0123456789+/".

(** [table_b2a_base64]: the character of a 6-bit value. *)
Definition table_b2a_base64 (n : N) : ascii :=
  match String.get (N.to_nat n) alphabet with
  | Some c => c
  | None => BASE64_PAD
  end.

Fixpoint index_of (c : ascii) (s : string) (i : N) : option N :=
  match s with
  | EmptyString => None
  | String d s' => if Ascii.eqb c d then Some i else index_of c s' (N.succ i)
  end.

(** [table_a2b_base64]: the 6-bit value of a character of the alphabet. *)
Definition table_a2b_base64 (c : ascii) : option N := index_of c alphabet 0%N.

Definition byte_of_N (n : N) : byte :=
  match Byte.of_N (n mod 256) with
  | Some b => b
  | None => x00
  end.

(** [base64.b64encode(data).decode('utf-8')]: RFC 4648 with the standard
    alphabet, three bytes to four characters, padded with [=]. *)
Fixpoint b64encode (data : list byte) : string :=
  match data with
  | [] => EmptyString
  | [a] =>
      let a := Byte.to_N a in
      String (table_b2a_base64 (a / 4))
        (String (table_b2a_base64 (a mod 4 * 16)) "==")
  | [a; b] =>
      let a := Byte.to_N a in
      let b := Byte.to_N b in
      String (table_b2a_base64 (a / 4))
        (String (table_b2a_base64 (a mod 4 * 16 + b / 16))
           (String (table_b2a_base64 (b mod 16 * 4)) "="))
  | a :: b :: c :: rest =>
      let a := Byte.to_N a in
      let b := Byte.to_N b in
      let c := Byte.to_N c in
      String (table_b2a_base64 (a / 4))
        (String (table_b2a_base64 (a mod 4 * 16 + b / 16))
           (String (table_b2a_base64 (b mod 16 * 4 + c / 64))
              (String (table_b2a_base64 (c mod 64)) (b64encode rest))))
  end.

(** [binascii.a2b_base64] in its default, non-strict mode: characters
    outside the alphabet are skipped, a complete pad sequence ends the
    parse, and a quad left open at the end of the input is an error. *)
Fixpoint a2b_loop (s : string) (quad_pos : nat) (leftchar : N) (pads : nat)
    (out : list byte) : Res (list byte) :=
  match s with
  | EmptyString =>
      match quad_pos with
      | 0 => Ok out
      | 1 =>
          Raise (Exn "binascii.Error"
            ("Invalid base64-encoded string: number of data characters ("
             ++ pretty (length out / 3 * 4 + 1)
             ++ ") cannot be 1 more than a multiple of 4"))
      | _ => Raise (Exn "binascii.Error" "Incorrect padding")
      end
  | String ch rest =>
      if Ascii.eqb ch BASE64_PAD then
        if (2 <=? quad_pos)%nat then
          if (4 <=? quad_pos + S pads)%nat then Ok out
          else a2b_loop rest quad_pos leftchar (S pads) out
        else a2b_loop rest quad_pos leftchar pads out
      else
        match table_a2b_base64 ch with
        | None => a2b_loop rest quad_pos leftchar pads out
        | Some this_ch =>
            match quad_pos with
            | 0 => a2b_loop rest 1 this_ch 0 out
            | 1 =>
                a2b_loop rest 2 (this_ch mod 16) 0
                  (out ++ [byte_of_N (leftchar * 4 + this_ch / 16)])
            | 2 =>
                a2b_loop rest 3 (this_ch mod 4) 0
                  (out ++ [byte_of_N (leftchar * 16 + this_ch / 4)])
            | _ =>
                a2b_loop rest 0 0%N 0
                  (out ++ [byte_of_N (leftchar * 64 + this_ch)])
            end
        end
  end.

Definition a2b_base64 (s : string) : Res (list byte) := a2b_loop s 0 0%N 0 [].

Fixpoint is_ascii_str (s : string) : bool :=
  match s with
  | EmptyString => true
  | String c s' => (N_of_ascii c <? 128)%N && is_ascii_str s'
  end.

(** [base64.b64decode(s)] on a [str] argument: [s.encode('ascii')] first. *)
Definition b64decode_str (s : string) : Res (list byte) :=
  if is_ascii_str s then a2b_base64 s
  else Raise (Exn "ValueError"
                "string argument should contain only ASCII characters").

Definition is_alpha (c : ascii) : bool :=
  match table_a2b_base64 c with Some _ => true | None => false end.

(** Canonical RFC 4648 text: quads of alphabet characters, only the last
    quad may end in one or two pad characters. *)
Fixpoint is_base64 (s : string) : bool :=
  match s with
  | EmptyString => true
  | String a (String b (String c (String d EmptyString))) =>
      is_alpha a && is_alpha b &&
      ((is_alpha c && (is_alpha d || Ascii.eqb d BASE64_PAD))
       || (Ascii.eqb c BASE64_PAD && Ascii.eqb d BASE64_PAD))
  | String a (String b (String c (String d rest))) =>
      is_alpha a && is_alpha b && is_alpha c && is_alpha d && is_base64 rest
  | _ => false
  end.

(** The 6-bit values, and what the two tables must satisfy on each. *)
Definition sextets : list N := map N.of_nat (seq 0 64).

Definition sextet_ok (n : N) : bool :=
  match table_a2b_base64 (table_b2a_base64 n) with
  | Some k => (k =? n)%N
  | None => false
  end
  && negb (Ascii.eqb (table_b2a_base64 n) BASE64_PAD)
  && (N_of_ascii (table_b2a_base64 n) <? 128)%N.

End Base64.

Import Base64.

(** ** JSON values as the Python objects RunPod hands to the handler *)

(** A job's ['input'] is any JSON value.  A number with a fraction behaves
    as [PInt] under every operation the handler applies. *)
#[local] Set Warnings "-register-all".
Inductive pyval :=
| PNone
| PBool (b : bool)
| PInt (z : Z)
| PStr (s : string)
| PList (l : list pyval)
| PDict (d : gmap string pyval).

Definition type_name (v : pyval) : string :=
  match v with
  | PNone => "NoneType"
  | PBool _ => "bool"
  | PInt _ => "int"
  | PStr _ => "str"
  | PList _ => "list"
  | PDict _ => "dict"
  end.

Fixpoint str_contains (needle hay : string) : bool :=
  if String.prefix needle hay then true
  else match hay with
       | EmptyString => false
       | String _ hay' => str_contains needle hay'
       end.

(** [key in v] for a [str] key. *)
Definition py_contains (key : string) (v : pyval) : Res bool :=
  match v with
  | PDict d => Ok (bool_decide (is_Some (d !! key)))
  | PList l =>
      Ok (existsb (fun x => match x with
                            | PStr s => String.eqb s key
                            | _ => false
                            end) l)
  | PStr s => Ok (str_contains key s)
  | _ => Raise (Exn "TypeError"
                  ("argument of type '" ++ type_name v ++ "' is not iterable"))
  end.

(** [v[key]] for a [str] key. *)
Definition py_getitem (v : pyval) (key : string) : Res pyval :=
  match v with
  | PDict d =>
      match d !! key with
      | Some x => Ok x
      | None => Raise (Exn "KeyError" ("'" ++ key ++ "'"))
      end
  | PList _ =>
      Raise (Exn "TypeError"
               "list indices must be integers or slices, not str")
  | PStr _ =>
      Raise (Exn "TypeError" "string indices must be integers, not 'str'")
  | _ => Raise (Exn "TypeError"
                  ("'" ++ type_name v ++ "' object is not subscriptable"))
  end.

(** [base64.b64decode(v)]. *)
Definition b64decode (v : pyval) : Res (list byte) :=
  match v with
  | PStr s => b64decode_str s
  | _ => Raise (Exn "TypeError"
                  ("argument should be a bytes-like object or ASCII string, not '"
                   ++ type_name v ++ "'"))
  end.

(** [t[-1]] on a tuple. *)
Definition py_last {A : Type} (t : list A) : Res A :=
  match last t with
  | Some x => Ok x
  | None => Raise (Exn "IndexError" "tuple index out of range")
  end.

(** ** PIL images and NumPy arrays *)

(** A PIL image: its mode, its size (width, height) and one row-major plane
    of pixel values per band.  PIL decodes lazily; a failure of the deferred
    decoding counts as a failure of [Image.open], inside the same [try]. *)
Record Image := mkImage {
  mode : string;
  size : nat * nat;
  bands : list (list Z) }.

(** [img.split()]: one single-band image per band. *)
Definition Image_split (img : Image) : list Image :=
  match bands img with
  | [_] => [img]
  | bs => map (fun b => mkImage "L" (size img) [b]) bs
  end.

Inductive dtype := np_uint8 | np_bool | np_uint16 | np_int32 | np_float32.

(** A C-ordered NumPy array; booleans are stored as 0 and 1. *)
Record ndarray := mkArray {
  arr_dtype : dtype;
  shape : list nat;
  data : list Z }.

Definition mode_dtype (m : string) : dtype :=
  if String.eqb m "1" then np_bool
  else if String.eqb m "I" then np_int32
  else if String.eqb m "F" then np_float32
  else if String.eqb m "I;16" then np_uint16
  else np_uint8.

Definition pixel (bs : list (list Z)) (k : nat) : list Z :=
  map (fun b => nth k b 0%Z) bs.

(** [np.array(img)]: shape (H, W) for one band, (H, W, C) otherwise. *)
Definition np_array (img : Image) : ndarray :=
  let '(w, h) := size img in
  match bands img with
  | [b] =>
      mkArray (mode_dtype (mode img)) [h; w]
        (flat_map (pixel [b]) (seq 0 (h * w)))
  | bs =>
      mkArray (mode_dtype (mode img)) [h; w; length bs]
        (flat_map (pixel bs) (seq 0 (h * w)))
  end.

(** [a.astype(np.uint8)]. *)
Definition astype_uint8 (a : ndarray) : ndarray :=
  mkArray np_uint8 (shape a) (map (fun v => v mod 256)%Z (data a)).

(** [a > 0]. *)
Definition np_gt0 (a : ndarray) : ndarray :=
  mkArray np_bool (shape a) (map (fun v => Z.b2z (0 <? v)%Z) (data a)).

(** ** Paths *)

Definition REPO_DIR : string := "sam-3d-objects".
Definition CHECKPOINT_DIR : string := "checkpoints/hf".

Definition ends_with_sep (a : string) : bool :=
  match last (list_ascii_of_string a) with
  | Some c => Ascii.eqb c "/"
  | None => true
  end.

Definition os_path_isabs (p : string) : bool := String.prefix "/" p.

(** [os.path.join(a, p)] on POSIX. *)
Definition os_path_join (a p : string) : string :=
  if os_path_isabs p then p
  else if ends_with_sep a then a ++ p
  else a ++ "/" ++ p.

(** ** The world and the external collaborators *)

Section Program.

Context {X Model GS : Type}.

(** What the model returns: a dict of named results. *)
Definition Output : Type := gmap string GS.

(** The collaborators this repository consumes as opaque.  The stateful
    ones thread the external state [X] (GPU, network, random source). *)
Record Env := mkEnv {
  (** the directories of [os.getcwd()] *)
  cwd : list string;
  (** [Inference(config_path, compile=False)] for the imported class,
      [None] when both imports failed *)
  Inference : option (string -> X -> Res Model * X);
  (** [str(uuid.uuid4())] *)
  uuid4 : X -> string * X;
  (** [Image.open(io.BytesIO(data))] *)
  PIL_open : list byte -> Res Image;
  (** the planes [img.convert(mode)] computes *)
  PIL_convert : Image -> string -> Res (list (list Z));
  (** what [rembg.remove(img)] returns *)
  rembg : Image -> X -> Res Image * X;
  (** [current_model(image, mask, seed=seed)] *)
  Inference_call : Model -> ndarray -> ndarray -> Z -> X -> Res Output * X;
  (** the bytes [gs.save_ply(path)] writes to [path] *)
  gs_save_ply : GS -> string -> X -> Res (list byte) * X }.

Inductive Event :=
| EvPrint (s : string)
| EvTraceback (e : exn)
| EvInference (config_path : string) (r : Res Model)
| EvUuid4 (s : string)
| EvConvert (img : Image) (m : string) (r : Res Image)
| EvRembg (img : Image) (r : Res Image)
| EvCall (m : Model) (image mask : ndarray) (seed : Z) (r : Res Output)
| EvSavePly (g : GS) (path : string) (r : Res (list byte))
| EvRead (path : string) (content : list byte)
| EvRemove (path : string).

Record World := mkWorld {
  (** the module global [model] *)
  model : option Model;
  (** the files on disk *)
  fs : gmap string (list byte);
  ext : X;
  (** every print and every call into a collaborator so far, oldest first *)
  trace : list Event }.

Definition M (A : Type) : Type := World -> Res A * World.

Definition ret {A} (a : A) : M A := fun w => (Ok a, w).

Definition bind {A B} (m : M A) (k : A -> M B) : M B :=
  fun w =>
    match m w with
    | (Ok a, w') => k a w'
    | (Raise e, w') => (Raise e, w')
    end.

Definition raise {A} (e : exn) : M A := fun w => (Raise e, w).

Definition lift {A} (r : Res A) : M A := fun w => (r, w).

(** [try: body  except Exception as e: handler e]. *)
Definition try_except {A} (body : M A) (hdl : exn -> M A) : M A :=
  fun w =>
    match body w with
    | (Ok a, w') => (Ok a, w')
    | (Raise e, w') => hdl e w'
    end.

#[global] Instance M_ret : MRet M := @ret.
#[global] Instance M_bind : MBind M := fun A B k m => bind m k.

Definition log (ev : Event) : M unit :=
  fun w => (Ok tt, mkWorld (model w) (fs w) (ext w) (trace w ++ [ev])).

Definition external {A} (f : X -> Res A * X) (ev : Res A -> Event) : M A :=
  fun w =>
    let '(r, x) := f (ext w) in
    (r, mkWorld (model w) (fs w) x (trace w ++ [ev r])).

Definition print (s : string) : M unit := log (EvPrint s).

Definition traceback_print_exc (e : exn) : M unit := log (EvTraceback e).

Definition get_model : M (option Model) := fun w => (Ok (model w), w).

Definition set_model (m : Model) : M unit :=
  fun w => (Ok tt, mkWorld (Some m) (fs w) (ext w) (trace w)).

Definition os_path_exists (p : string) : M bool :=
  fun w => (Ok (bool_decide (is_Some (fs w !! p))), w).

(** [with open(p, 'rb') as f: f.read()]. *)
Definition read_bytes (p : string) : M (list byte) :=
  fun w =>
    match fs w !! p with
    | Some content =>
        (Ok content,
         mkWorld (model w) (fs w) (ext w) (trace w ++ [EvRead p content]))
    | None =>
        (Raise (Exn "FileNotFoundError"
                  ("[Errno 2] No such file or directory: '" ++ p ++ "'")), w)
    end.

Definition os_remove (p : string) : M unit :=
  fun w =>
    match fs w !! p with
    | Some _ =>
        (Ok tt,
         mkWorld (model w) (delete p (fs w)) (ext w) (trace w ++ [EvRemove p]))
    | None =>
        (Raise (Exn "FileNotFoundError"
                  ("[Errno 2] No such file or directory: '" ++ p ++ "'")), w)
    end.

Variable env : Env.

Definition os_getcwd : string := "/" ++ String.concat "/" (cwd env).

(** [os.path.abspath(p)]; [normpath] leaves the paths of this program as
    they are (no empty, [.] or [..] component). *)
Definition os_path_abspath (p : string) : string := os_path_join os_getcwd p.

(** [str(uuid.uuid4())]. *)
Definition uuid_uuid4 : M string :=
  fun w =>
    let '(s, x) := uuid4 env (ext w) in
    (Ok s, mkWorld (model w) (fs w) x (trace w ++ [EvUuid4 s])).

(** [Image.open(io.BytesIO(image_data))]: decoding an in-memory buffer
    touches nothing outside, so it is not logged. *)
Definition Image_open (image_data : list byte) : M Image :=
  lift (PIL_open env image_data).

(** [img.convert(m)]: a new image of mode [m] and of the same size. *)
Definition Image_convert (img : Image) (m : string) : M Image :=
  fun w =>
    let r := match PIL_convert env img m with
             | Ok bs => Ok (mkImage m (size img) bs)
             | Raise e => Raise e
             end in
    (r, mkWorld (model w) (fs w) (ext w) (trace w ++ [EvConvert img m r])).

Definition rembg_remove (img : Image) : M Image :=
  external (rembg env img) (EvRembg img).

Definition call (m : Model) (image mask : ndarray) (seed : Z) : M Output :=
  external (Inference_call env m image mask seed) (EvCall m image mask seed).

(** [gs.save_ply(path)]: the file at [path] holds the serialized bytes
    when the call returns. *)
Definition save_ply (g : GS) (path : string) : M unit :=
  fun w =>
    let '(r, x) := gs_save_ply env g path (ext w) in
    match r with
    | Ok content =>
        (Ok tt, mkWorld (model w) (<[path := content]> (fs w)) x
                  (trace w ++ [EvSavePly g path r]))
    | Raise e =>
        (Raise e, mkWorld (model w) (fs w) x (trace w ++ [EvSavePly g path r]))
    end.

(** [output["gs"]]. *)
Definition output_gs (output : Output) : Res GS :=
  match output !! "gs" with
  | Some g => Ok g
  | None => Raise (Exn "KeyError" "'gs'")
  end.

(** ** [load_model] (app.py 68-90, handler.py 68-83) *)

Definition load_model : M Model :=
  m ← get_model;
  match m with
  | Some loaded => mret loaded
  | None =>
      match Inference env with
      | None =>
          raise (Exn "ImportError" "Could not import SAM3D Inference module.")
      | Some new =>
          print "Loading Model...";;
          let config_path :=
            os_path_abspath
              (os_path_join (os_path_join REPO_DIR CHECKPOINT_DIR)
                 "pipeline.yaml") in
          print ("Using config: " ++ config_path);;
          found ← os_path_exists config_path;
          if negb found then
            raise (Exn "FileNotFoundError"
                     ("Config file not found at " ++ config_path))
          else
            created ← external (new config_path) (EvInference config_path);
            set_model created;;
            print "Model loaded.";;
            (* [return model]: the global just assigned *)
            mret created
      end
  end.

(** ** [process] (app.py 94-137)

    The [@spaces.GPU] decorator only schedules the call on a GPU worker. *)

Definition process_try (input_image : Image)
    : M (option string * option string) :=
  current_model ← load_model;
  run_id ← uuid_uuid4;
  input_image_rgb ←
    (if negb (String.eqb (mode input_image) "RGB")
     then Image_convert input_image "RGB"
     else mret input_image);
  let image_np := astype_uint8 (np_array input_image_rgb) in
  print "removing background...";;
  rembg_output ← rembg_remove input_image_rgb;
  mask_pil ← lift (py_last (Image_split rembg_output));
  let mask_np := np_gt0 (np_array mask_pil) in
  print "Running Inference...";;
  output ← call current_model image_np mask_np 42;
  let output_ply_name := "output_" ++ run_id ++ ".ply" in
  let output_ply_path := os_path_abspath output_ply_name in
  gs ← lift (output_gs output);
  save_ply gs output_ply_path;;
  print ("Saved to " ++ output_ply_path);;
  mret (Some output_ply_path, Some output_ply_path).

Definition process_except (e : exn) : M (option string * option string) :=
  traceback_print_exc e;;
  raise (Exn "gradio.Error" ("Error processing image: " ++ exn_str e)).

Definition process (input_image : option Image)
    : M (option string * option string) :=
  match input_image with
  | None => mret (None, None)
  | Some input_image => try_except (process_try input_image) process_except
  end.

(** ** [handler] (handler.py 87-146) *)

Definition handler_try (job_input : pyval) : M (gmap string pyval) :=
  current_model ← load_model;
  image_b64 ← lift (py_getitem job_input "image");
  image_data ← lift (b64decode image_b64);
  input_image ← Image_open image_data;
  run_id ← uuid_uuid4;
  input_image_rgb ←
    (if negb (String.eqb (mode input_image) "RGB")
     then Image_convert input_image "RGB"
     else mret input_image);
  let image_np := astype_uint8 (np_array input_image_rgb) in
  print "removing background...";;
  rembg_output ← rembg_remove input_image_rgb;
  mask_pil ← lift (py_last (Image_split rembg_output));
  let mask_np := np_gt0 (np_array mask_pil) in
  print "Running Inference...";;
  output ← call current_model image_np mask_np 42;
  let output_ply_name := "output_" ++ run_id ++ ".ply" in
  let output_ply_path := os_path_abspath output_ply_name in
  gs ← lift (output_gs output);
  save_ply gs output_ply_path;;
  print ("Saved to " ++ output_ply_path);;
  ply_content ← read_bytes output_ply_path;
  let ply_base64 := b64encode ply_content in
  found ← os_path_exists output_ply_path;
  (if (found : bool) then os_remove output_ply_path else mret tt);;
  mret ({[ "ply" := PStr ply_base64; "filename" := PStr output_ply_name ]}
        : gmap string pyval).

Definition handler_except (e : exn) : M (gmap string pyval) :=
  traceback_print_exc e;;
  mret ({[ "error" := PStr (exn_str e) ]} : gmap string pyval).

Definition handler (job : gmap string pyval) : M (gmap string pyval) :=
  job_input ← lift (py_getitem (PDict job) "input");
  has_image ← lift (py_contains "image" job_input);
  if negb has_image then
    mret ({[ "error" :=
               PStr "No image provided in input. Expecting json: {'image': 'base64str'}" ]}
          : gmap string pyval)
  else try_except (handler_try job_input) handler_except.

End Program.

Arguments Env : clear implicits.
Arguments World : clear implicits.
Arguments Event : clear implicits.

(** ** Vocabulary of the statements *)

Definition is_container (v : pyval) : bool :=
  match v with
  | PDict _ | PList _ | PStr _ => true
  | _ => false
  end.

(** The two shapes of a job output. *)
Definition is_ply_output (out : gmap string pyval) : Prop :=
  exists ply filename,
    out = {[ "ply" := PStr ply; "filename" := PStr filename ]}
    /\ is_base64 ply = true.

Definition is_error_output (out : gmap string pyval) : Prop :=
  exists msg, out = {[ "error" := PStr msg ]}.

Definition NO_IMAGE : string :=
  "No image provided in input. Expecting json: {'image': 'base64str'}".

Section Vocabulary.

Context {X Model GS : Type}.

Definition is_construct (ev : Event Model GS) : bool :=
  match ev with EvInference _ _ => true | _ => false end.

Definition is_call (ev : Event Model GS) : bool :=
  match ev with EvCall _ _ _ _ _ => true | _ => false end.

Definition is_rembg (ev : Event Model GS) : bool :=
  match ev with EvRembg _ _ => true | _ => false end.

Definition is_save (ev : Event Model GS) : bool :=
  match ev with EvSavePly _ _ _ => true | _ => false end.

Definition is_uuid (ev : Event Model GS) : bool :=
  match ev with EvUuid4 _ => true | _ => false end.

(** What [load_model] may log. *)
Definition is_load_event (ev : Event Model GS) : bool :=
  match ev with
  | EvPrint _ | EvInference _ _ => true
  | _ => false
  end.

(** Events that are no call into the remover or the model. *)
Definition is_plumbing (ev : Event Model GS) : bool :=
  negb (is_call ev || is_rembg ev).

Definition count_ev (f : Event Model GS -> bool) (evs : list (Event Model GS))
    : nat :=
  length (List.filter f evs).

(** One completed inference call, with seed 42, whose ["gs"] result is
    what the one [save_ply] serialized. *)
Definition one_call_one_save (evs : list (Event Model GS)) : Prop :=
  count_ev is_call evs = 1
  /\ count_ev is_save evs = 1
  /\ exists m image mask output g path content,
       In (EvCall m image mask 42 (Ok output)) evs
       /\ output_gs output = Ok g
       /\ In (EvSavePly g path (Ok content)) evs.

Variable env : Env X Model GS.

(** Lines 99-100 of handler.py as one partial function of the job input. *)
Definition decode_image (job_input : pyval) : Res Image :=
  match py_getitem job_input "image" with
  | Ok image_b64 =>
      match b64decode image_b64 with
      | Ok image_data => PIL_open env image_data
      | Raise e => Raise e
      end
  | Raise e => Raise e
  end.

(** [rgb] is what both entry points bind to [input_image_rgb]. *)
Definition rgb_version (input_image rgb : Image) : Prop :=
  (mode input_image = "RGB" /\ rgb = input_image)
  \/ (mode input_image <> "RGB"
      /\ exists planes, PIL_convert env input_image "RGB" = Ok planes
                        /\ rgb = mkImage "RGB" (size input_image) planes).

(** What holds of the events of one request on [input_image], however the
    request ends. *)
Definition pipeline_ok (input_image : Res Image)
    (evs : list (Event Model GS)) : Prop :=
  count_ev is_call evs <= 1
  /\ (forall rgb r, In (EvRembg rgb r) evs ->
        exists img, input_image = Ok img /\ rgb_version img rgb)
  /\ (forall m image mask seed r, In (EvCall m image mask seed r) evs ->
        seed = 42%Z
        /\ exists img rgb removed alpha,
             input_image = Ok img /\ rgb_version img rgb
             /\ In (EvRembg rgb (Ok removed)) evs
             /\ py_last (Image_split removed) = Ok alpha
             /\ image = astype_uint8 (np_array rgb)
             /\ mask = np_gt0 (np_array alpha)).

End Vocabulary.


Section Runs.

Context {X Model GS : Type} (env : Env X Model GS).

(** The name and the path of the output file of run [run_id]. *)
Definition ply_name (run_id : string) : string :=
  "output_" ++ run_id ++ ".ply".
Definition ply_path (run_id : string) : string :=
  os_path_abspath env (ply_name run_id).

(** What a request that reaches the end of the shared steps has logged
    after [load_model]. *)
Definition success_events (img rgb removed alpha : Image) (m : Model)
    (run_id : string) (output : Output) (g : GS) (content : list byte)
    : list (Event Model GS) :=
  (EvUuid4 run_id
     :: (if negb (mode img =? "RGB") then [EvConvert img "RGB" (Ok rgb)]
         else []))
  ++ [EvPrint "removing background...";
      EvRembg rgb (Ok removed);
      EvPrint "Running Inference...";
      EvCall m (astype_uint8 (np_array rgb)) (np_gt0 (np_array alpha)) 42
        (Ok output);
      EvSavePly g (ply_path run_id) (Ok content);
      EvPrint ("Saved to " ++ ply_path run_id)].

(** [processed img w run_id content evs w1]: from world [w], the steps both
    entry points share ran to the end on [img]; they logged [evs], saved
    [content] under [ply_path run_id] and left world [w1]. *)
Inductive processed (img : Image) (w : World X Model GS)
    : string -> list byte -> list (Event Model GS) -> World X Model GS
      -> Prop :=
| processed_intro m wl evsL run_id x2 rgb removed x3 alpha output x4 g
    content x5 :
    load_model env w = (Ok m, wl) ->
    trace wl = (trace w ++ evsL)%list ->
    forallb is_load_event evsL = true ->
    uuid4 env (ext wl) = (run_id, x2) ->
    rgb_version env img rgb ->
    rembg env rgb x2 = (Ok removed, x3) ->
    py_last (Image_split removed) = Ok alpha ->
    Inference_call env m (astype_uint8 (np_array rgb))
      (np_gt0 (np_array alpha)) 42 x3 = (Ok output, x4) ->
    output_gs output = Ok g ->
    gs_save_ply env g (ply_path run_id) x4 = (Ok content, x5) ->
    processed img w run_id content
      (evsL ++ success_events img rgb removed alpha m run_id output g content)
      (mkWorld (model wl) (<[ply_path run_id := content]> (fs w)) x5
         (trace w ++ evsL
          ++ success_events img rgb removed alpha m run_id output g content)).

(** The world after [traceback.print_exc()] in an [except] block. *)
Definition after_traceback (e : exn) (w : World X Model GS)
    : World X Model GS :=
  mkWorld (model w) (fs w) (ext w) (trace w ++ [EvTraceback e]).

(** The world after the handler has read the saved file back and removed it. *)
Definition after_cleanup (path : string) (content : list byte)
    (w : World X Model GS) : World X Model GS :=
  mkWorld (model w) (delete path (fs w)) (ext w)
    (trace w ++ [EvRead path content; EvRemove path]).

(** The error a Gradio user sees for exception [e]. *)
Definition gr_Error (e : exn) : exn :=
  Exn "gradio.Error" ("Error processing image: " ++ exn_str e).

End Runs.

(** ** A small concrete environment

    One-pixel grayscale images stored as a single byte, a stub model whose
    splat is the list of bytes it will save, and a counter for the rest of
    the outside world. *)

Module Demo.

Definition env : Env nat string (list byte) := {|
  cwd := ["app"];
  Inference := Some (fun config_path x => (Ok config_path, S x));
  uuid4 := fun x => ("run-" ++ pretty x, S x);
  PIL_open := fun image_data =>
    match image_data with
    | [b] => Ok (mkImage "L" (1, 1) [[Z.of_N (Byte.to_N b)]])
    | _ => Raise (Exn "UnidentifiedImageError" "cannot identify image file")
    end;
  PIL_convert := fun img m =>
    match bands img with
    | b :: _ => Ok [b; b; b]
    | [] => Raise (Exn "ValueError" "conversion not supported")
    end;
  rembg := fun img x =>
    (Ok (mkImage "RGBA" (size img)
           (bands img ++ [map (fun v => if (v <? 128)%Z then 0%Z else 255%Z)
                            (default [] (head (bands img)))])), S x);
  Inference_call := fun m image mask seed x =>
    (Ok {[ "gs" := map (fun v => byte_of_N (Z.to_N v))
                     (data image ++ data mask) ]}, S x);
  gs_save_ply := fun g path x => (Ok g, S x) |}.

Definition config_path : string :=
  "/app/sam-3d-objects/checkpoints/hf/pipeline.yaml".

Definition w0 : World nat string (list byte) :=
  mkWorld None {[ config_path := [] ]} 0 [].

Definition job (v : pyval) : gmap string pyval :=
  {[ "id" := PStr "job-1"; "input" := v ]}.

(** The one-pixel image of gray level 200, and its base64 text. *)
Definition image_data : list byte := [byte_of_N 200].
Definition gray : Image := mkImage "L" (1, 1) [[200%Z]].

(** A job carrying that image, and the worlds the runs on it end in. *)
Definition good_input : pyval := PDict {[ "image" := PStr "yA==" ]}.
Definition good_job : gmap string pyval := job good_input.
Definition ply : string := "/app/output_run-1.ply".
Definition ply_bytes : list byte :=
  [byte_of_N 200; byte_of_N 200; byte_of_N 200; byte_of_N 1].
Definition w_loaded : World nat string (list byte) := snd (load_model env w0).
Definition w_process : World nat string (list byte) :=
  snd (process env (Some gray) w0).
Definition w_handler : World nat string (list byte) :=
  snd (handler env good_job w0).

End Demo.

(** ** Further vocabulary *)

(** The characters of [s] that [binascii.a2b_base64] looks at: those of the
    alphabet and the pad character. *)
Fixpoint significant (s : string) : string :=
  match s with
  | EmptyString => EmptyString
  | String c s' =>
      if Ascii.eqb c BASE64_PAD || is_alpha c then String c (significant s')
      else significant s'
  end.

Section MoreVocabulary.

Context {X Model GS : Type} (env : Env X Model GS).

(** The [config_path] of [load_model]. *)
Definition config_path : string :=
  os_path_abspath env
    (os_path_join (os_path_join REPO_DIR CHECKPOINT_DIR) "pipeline.yaml").

Definition IMPORT_FAILED : exn :=
  Exn "ImportError" "Could not import SAM3D Inference module.".

Definition is_read (ev : Event Model GS) : bool :=
  match ev with EvRead _ _ => true | _ => false end.

Definition is_convert (ev : Event Model GS) : bool :=
  match ev with EvConvert _ _ _ => true | _ => false end.

Definition is_remove (ev : Event Model GS) : bool :=
  match ev with EvRemove _ => true | _ => false end.

(** Events that are neither a model call nor an operation on a file. *)
Definition is_quiet (ev : Event Model GS) : bool :=
  negb (is_call ev || is_save ev || is_read ev || is_remove ev).

(** Each effect of a request rests on the success of the one before it:
    the model called is the object in the global [model]; a file is saved
    only from the ["gs"] entry of a call that returned, under the path of
    the run id drawn; a file is read back only after it was saved, and
    removed only after it was read. *)
Definition effects_justified (model_before model_after : option Model)
    (evs : list (Event Model GS)) : Prop :=
  (forall m image mask seed r,
     In (EvCall m image mask seed r) evs ->
     model_after = Some m /\ (forall m0, model_before = Some m0 -> m = m0))
  /\ (forall g path r,
        In (EvSavePly g path r) evs ->
        exists m image mask output run_id,
          In (EvCall m image mask 42 (Ok output)) evs
          /\ output_gs output = Ok g
          /\ In (EvUuid4 run_id) evs
          /\ path = ply_path env run_id)
  /\ (forall path content,
        In (EvRead path content) evs ->
        exists g, In (EvSavePly g path (Ok content)) evs)
  /\ (forall path,
        In (EvRemove path) evs -> exists content, In (EvRead path content) evs).

(** A construction of [Inference] that returned. *)
Definition is_built (ev : Event Model GS) : bool :=
  match ev with EvInference _ (Ok _) => true | _ => false end.

(** Over the events [evs] the global [model] was set at most once and never
    reset: a model that was there is still there, and [Inference] returned
    an object exactly when [model] went from [None] to an object. *)
Definition built_once (model_before model_after : option Model)
    (evs : list (Event Model GS)) : Prop :=
  (forall m, model_before = Some m -> model_after = Some m)
  /\ count_ev is_built evs
     = match model_before, model_after with
       | None, Some _ => 1
       | _, _ => 0
       end.

(** A request on image [img] that ran to its end from world [w] to world
    [w']: [process] returned on [img], or the handler returned a result
    without an ['error'] entry for a job whose image decodes to [img]. *)
Definition completed (img : Image) (w w' : World X Model GS) : Prop :=
  (exists p, process env (Some img) w = (Ok p, w'))
  \/ (exists job job_input out,
        job !! "input" = Some job_input
        /\ decode_image env job_input = Ok img
        /\ handler env job w = (Ok out, w')
        /\ out !! "error" = None).

(** One call of [process], one call of [handler]: each file is a program of
    its own, with its own global [model]. *)
Definition process_step (w w' : World X Model GS) : Prop :=
  exists input_image r, process env input_image w = (r, w').

Definition handler_step (w w' : World X Model GS) : Prop :=
  exists job r, handler env job w = (r, w').

(** One request to one of the two programs went from world [w] to world
    [w']: a call of [process] or a call of [handler], whatever its argument
    and outcome. *)
Definition request_step (w w' : World X Model GS) : Prop :=
  (exists input_image r, process env input_image w = (r, w'))
  \/ (exists job r, handler env job w = (r, w')).

End MoreVocabulary.

Arguments config_path {X Model GS} env : simpl never.


(** ** The module body (app.py 20-66, handler.py 21-66)

    What either file runs when it is imported, before the first request:
    clone the model repository, extend [sys.path], download the checkpoints
    and import [Inference].  The two files differ in one printed line. *)

Module Startup.

Definition REPO_URL : string :=
  "https://github.com/facebookresearch/sam-3d-objects.git".
Definition CHECKPOINT_REPO : string := "facebook/sam-3d-objects".

Definition app_hint : string :=
  "Ensure you have set HF_TOKEN in your Space secrets and accepted the model license.".
Definition handler_hint : string :=
  "Ensure you have set HF_TOKEN in your RunPod Template Env Vars.".

Section Body.

(** [H] is the machine the module starts on (its disk and the network);
    [X], [Model] and [GS] are as for the requests. *)
Context {H X Model GS : Type}.

(** The class [Inference], called as [Inference(config_path, compile=False)]. *)
Definition Ctor : Type := string -> X -> Res Model * X.

(** The collaborators of the module body, consumed as opaque. *)
Record Host := mkHost {
  (** [os.path.exists(p)], for files and directories *)
  path_exists : string -> H -> bool;
  (** [subprocess.run(["git", "clone", url, dir], check=True)] *)
  git_clone : string -> string -> H -> Res unit * H;
  (** [os.makedirs(p, exist_ok=True)] *)
  makedirs : string -> H -> Res unit * H;
  (** [snapshot_download(repo_id=.., local_dir=.., repo_type="model")] *)
  hf_snapshot_download : string -> string -> H -> Res unit * H;
  (** [from inference import Inference] under the given [sys.path]; running
      the imported module may itself change [sys.path] *)
  import_Inference : list string -> H -> Res Ctor * (list string * H);
  (** [isinstance(e, ImportError)] *)
  is_ImportError : exn -> bool }.

Inductive BootEvent :=
| BPrint (s : string)
| BClone (url dir : string) (r : Res unit)
| BMakedirs (p : string) (r : Res unit)
| BDownload (repo_id local_dir : string) (r : Res unit)
| BImport (path : list string) (r : Res Ctor).

Record Boot := mkBoot {
  sys_path : list string;
  machine : H;
  (** every print and every call into a collaborator so far, oldest first *)
  console : list BootEvent }.

Definition B (A : Type) : Type := Boot -> Res A * Boot.

#[global] Instance B_ret : MRet B := fun A a b => (Ok a, b).
#[global] Instance B_bind : MBind B := fun A C k m b =>
  match m b with
  | (Ok a, b') => k a b'
  | (Raise e, b') => (Raise e, b')
  end.

(** [try: body  except <class> as e: hdl e], where [catches] tells the
    instances of the class. *)
Definition try_except {A} (body : B A) (catches : exn -> bool)
    (hdl : exn -> B A) : B A :=
  fun b =>
    match body b with
    | (Ok a, b') => (Ok a, b')
    | (Raise e, b') => if catches e then hdl e b' else (Raise e, b')
    end.

(** Every exception of the model is an instance of [Exception]. *)
Definition Exception (e : exn) : bool := true.

Definition log (ev : BootEvent) : B unit :=
  fun b => (Ok tt, mkBoot (sys_path b) (machine b) (console b ++ [ev])).

Definition external {A} (f : H -> Res A * H) (ev : Res A -> BootEvent) : B A :=
  fun b =>
    let '(r, h) := f (machine b) in
    (r, mkBoot (sys_path b) h (console b ++ [ev r])).

Definition print (s : string) : B unit := log (BPrint s).

Definition sys_path_append (p : string) : B unit :=
  fun b => (Ok tt, mkBoot (sys_path b ++ [p]) (machine b) (console b)).

Variable host : Host.
Variable env : Env X Model GS.

Definition os_path_exists (p : string) : B bool :=
  fun b => (Ok (path_exists host p (machine b)), b).

Definition subprocess_run_git_clone (url dir : string) : B unit :=
  external (git_clone host url dir) (BClone url dir).

Definition os_makedirs (p : string) : B unit :=
  external (makedirs host p) (BMakedirs p).

Definition snapshot_download (repo_id local_dir : string) : B unit :=
  external (hf_snapshot_download host repo_id local_dir)
    (BDownload repo_id local_dir).

Definition from_inference_import_Inference : B Ctor :=
  fun b =>
    let '(r, (path, h)) := import_Inference host (sys_path b) (machine b) in
    (r, mkBoot path h (console b ++ [BImport (sys_path b) r])).

(** handler.py 22-31, app.py 21-30: the banner, the clone and [sys.path]. *)
Definition clone_repository : B unit :=
  print "--- Starting SAM3D-Objects Setup ---";;
  found ← os_path_exists REPO_DIR;
  (if negb found then
     print ("Cloning " ++ REPO_URL ++ "...");;
     subprocess_run_git_clone REPO_URL REPO_DIR
   else mret tt);;
  sys_path_append (os_path_abspath env REPO_DIR);;
  sys_path_append (os_path_abspath env (os_path_join REPO_DIR "notebook")).

(** handler.py 34-49, app.py 34-48; [hint] is the line that differs. *)
Definition download_checkpoints (hint : string) : B unit :=
  print "Downloading checkpoints...";;
  try_except
    (let target_ckpt_path := os_path_join REPO_DIR CHECKPOINT_DIR in
     os_makedirs target_ckpt_path;;
     snapshot_download CHECKPOINT_REPO target_ckpt_path;;
     print "Checkpoints downloaded successfully.")
    Exception
    (fun e =>
       print ("Error downloading checkpoints: " ++ exn_str e);;
       print hint).

(** handler.py 53-63, app.py 52-63: the value of the global [Inference]. *)
Definition import_Inference_or_None : B (option Ctor) :=
  try_except
    (Inference ← from_inference_import_Inference; mret (Some Inference))
    (is_ImportError host)
    (fun e =>
       print ("Failed to import Inference: " ++ exn_str e);;
       sys_path_append (os_path_join (os_getcwd env) REPO_DIR);;
       sys_path_append
         (os_path_join (os_path_join (os_getcwd env) REPO_DIR) "notebook");;
       try_except
         (Inference ← from_inference_import_Inference; mret (Some Inference))
         (is_ImportError host)
         (fun _ =>
            print "CRITICAL: Still cannot import Inference.";;
            mret None)).

(** The module body up to [model = None]; it returns the global
    [Inference]. *)
Definition module_body (hint : string) : B (option Ctor) :=
  clone_repository;;
  download_checkpoints hint;;
  import_Inference_or_None.

(** The two directories the body puts on [sys.path]. *)
Definition repo_dirs : list string :=
  [os_path_abspath env REPO_DIR;
   os_path_abspath env (os_path_join REPO_DIR "notebook")].

Definition is_clone (ev : BootEvent) : bool :=
  match ev with BClone _ _ _ => true | _ => false end.

Definition is_download (ev : BootEvent) : bool :=
  match ev with BMakedirs _ _ | BDownload _ _ _ => true | _ => false end.

Definition is_import (ev : BootEvent) : bool :=
  match ev with BImport _ _ => true | _ => false end.

Definition is_print (ev : BootEvent) : bool :=
  match ev with BPrint _ => true | _ => false end.

End Body.

Arguments Host : clear implicits.
Arguments BootEvent : clear implicits.
Arguments Boot : clear implicits.

End Startup.

(** ** More concrete cases

    Variants of the environment of [Demo], and a machine to start the
    module on: its state is the list of the paths that exist. *)

Module Cases.

Definition OOM : exn := Exn "RuntimeError" "CUDA out of memory".

(** An [Inference] whose first construction fails. *)
Definition flaky (config_path : string) (x : nat) : Res string * nat :=
  if (x =? 0)%nat then (Raise OOM, S x) else (Ok config_path, S x).

Definition with_Inference
    (c : option (string -> nat -> Res string * nat))
    : Env nat string (list byte) := {|
  cwd := cwd Demo.env;
  Inference := c;
  uuid4 := uuid4 Demo.env;
  PIL_open := PIL_open Demo.env;
  PIL_convert := PIL_convert Demo.env;
  rembg := rembg Demo.env;
  Inference_call := Inference_call Demo.env;
  gs_save_ply := gs_save_ply Demo.env |}.

(** [Demo.env] after a start in which both imports failed. *)
Definition env_unimported : Env nat string (list byte) := with_Inference None.

Definition env_flaky : Env nat string (list byte) :=
  with_Inference (Some flaky).

(** A world without the configuration file. *)
Definition w_bare : World nat string (list byte) := mkWorld None ∅ 0 [].

Definition NOT_FOUND : exn :=
  Exn "FileNotFoundError"
    "Config file not found at /app/sam-3d-objects/checkpoints/hf/pipeline.yaml".

Definition w_not_found : World nat string (list byte) :=
  snd (load_model Demo.env w_bare).
Definition w_failed : World nat string (list byte) :=
  snd (load_model env_flaky Demo.w0).
Definition w_retried : World nat string (list byte) :=
  snd (load_model env_flaky w_failed).

(** Jobs whose input passes the ['image'] test without holding an image. *)
Definition text_job : gmap string pyval := Demo.job (PStr "my image").
Definition odd_job : gmap string pyval :=
  Demo.job (PDict {[ "image" := PStr "A" ]}).

(** The image of [Demo.good_input], sent with line breaks and blanks. *)
Definition wrapped : string :=
  String "y" (String "A" (String "010" (String " " (String "=" (String "010"
    (String "=" EmptyString)))))).

(** What the handler answers to [Demo.good_job]. *)
Definition good_output : gmap string pyval :=
  {[ "ply" := PStr (b64encode Demo.ply_bytes);
     "filename" := PStr "output_run-1.ply" ]}.

(** The world after a second job. *)
Definition w_second : World nat string (list byte) :=
  snd (handler Demo.env Demo.good_job Demo.w_handler).

(** *** Machines *)

Definition on_disk (p : string) (h : list string) : bool :=
  existsb (String.eqb p) h.

Definition MISSING : exn :=
  Exn "ModuleNotFoundError" "No module named 'inference'".
Definition GATED : exn :=
  Exn "GatedRepoError" "401 Client Error. Cannot access gated repo.".
Definition NO_GIT : exn :=
  Exn "CalledProcessError"
    "Command '['git', 'clone', 'https://github.com/facebookresearch/sam-3d-objects.git', 'sam-3d-objects']' returned non-zero exit status 128.".

(** A machine with network access but no token: the clone works, the
    download is refused, the import finds the cloned module. *)
Definition host : Startup.Host (list string) nat string := {|
  Startup.path_exists := on_disk;
  Startup.git_clone := fun url dir h => (Ok tt, dir :: h);
  Startup.makedirs := fun p h => (Ok tt, p :: h);
  Startup.hf_snapshot_download := fun repo_id local_dir h => (Raise GATED, h);
  Startup.import_Inference := fun path h =>
    if on_disk "/app/sam-3d-objects/notebook" path
       && on_disk "sam-3d-objects" h
    then (Ok flaky, (path, h))
    else (Raise MISSING, (path, h));
  Startup.is_ImportError := fun e =>
    String.eqb (exn_class e) "ImportError"
    || String.eqb (exn_class e) "ModuleNotFoundError" |}.

(** A machine without network: the clone fails. *)
Definition host_offline : Startup.Host (list string) nat string := {|
  Startup.path_exists := on_disk;
  Startup.git_clone := fun url dir h => (Raise NO_GIT, h);
  Startup.makedirs := Startup.makedirs host;
  Startup.hf_snapshot_download := Startup.hf_snapshot_download host;
  Startup.import_Inference := Startup.import_Inference host;
  Startup.is_ImportError := Startup.is_ImportError host |}.

(** A machine whose clone holds no [inference] module. *)
Definition host_broken : Startup.Host (list string) nat string := {|
  Startup.path_exists := on_disk;
  Startup.git_clone := Startup.git_clone host;
  Startup.makedirs := Startup.makedirs host;
  Startup.hf_snapshot_download := Startup.hf_snapshot_download host;
  Startup.import_Inference := fun path h => (Raise MISSING, (path, h));
  Startup.is_ImportError := Startup.is_ImportError host |}.

Definition b0 : Startup.Boot (list string) nat string :=
  Startup.mkBoot ["/usr/lib/python3"] [] [].

Definition b_started : Startup.Boot (list string) nat string :=
  snd (Startup.module_body host Demo.env Startup.handler_hint b0).
Definition b_offline : Startup.Boot (list string) nat string :=
  snd (Startup.module_body host_offline Demo.env Startup.handler_hint b0).
Definition b_broken : Startup.Boot (list string) nat string :=
  snd (Startup.module_body host_broken Demo.env Startup.app_hint b0).

End Cases.
(** * Properties *)

(** ** base64 round trip *)

Section Base64Facts.

#[local] Ltac Zify.zify_post_hook ::= Z.to_euclidean_division_equations.

Lemma sextet_In (n : N) : (n < 64)%N -> In n sextets.
Proof.
  intros Hn. unfold sextets. rewrite <- (N2Nat.id n).
  apply in_map, in_seq. lia.
Qed.

Lemma sextets_ok : forallb sextet_ok sextets = true.
Proof. vm_compute. reflexivity. Qed.

Lemma sextet_ok_lt (n : N) : (n < 64)%N -> sextet_ok n = true.
Proof.
  intros Hn. pose proof sextets_ok as Hall.
  rewrite forallb_forall in Hall. apply Hall, sextet_In, Hn.
Qed.

Lemma table_a2b_b2a (n : N) :
  (n < 64)%N -> table_a2b_base64 (table_b2a_base64 n) = Some n.
Proof.
  intros Hn. pose proof (sextet_ok_lt n Hn) as Hok. unfold sextet_ok in Hok.
  apply andb_prop in Hok as [Hok _]. apply andb_prop in Hok as [Hok _].
  destruct (table_a2b_base64 (table_b2a_base64 n)) as [k|]; [|discriminate].
  apply N.eqb_eq in Hok. congruence.
Qed.

Lemma table_b2a_not_pad (n : N) :
  (n < 64)%N -> Ascii.eqb (table_b2a_base64 n) BASE64_PAD = false.
Proof.
  intros Hn. pose proof (sextet_ok_lt n Hn) as Hok. unfold sextet_ok in Hok.
  apply andb_prop in Hok as [Hok _]. apply andb_prop in Hok as [_ Hok].
  now apply negb_true_iff in Hok.
Qed.

Lemma table_b2a_ascii (n : N) :
  (n < 64)%N -> (N_of_ascii (table_b2a_base64 n) <? 128)%N = true.
Proof.
  intros Hn. pose proof (sextet_ok_lt n Hn) as Hok. unfold sextet_ok in Hok.
  now apply andb_prop in Hok as [_ Hok].
Qed.

Lemma is_alpha_b2a (n : N) : (n < 64)%N -> is_alpha (table_b2a_base64 n) = true.
Proof. intros Hn. unfold is_alpha. now rewrite table_a2b_b2a. Qed.

Lemma byte_of_to_N (b : byte) : byte_of_N (Byte.to_N b) = b.
Proof.
  unfold byte_of_N. pose proof (Byte.to_N_bounded b) as Hb.
  rewrite N.mod_small by lia. now rewrite Byte.of_to_N.
Qed.

(** One decoding step on a character of the alphabet. *)
Lemma a2b_loop_alpha (n : N) (rest : string) (q : nat) (l : N) (p : nat)
    (out : list byte) :
  (n < 64)%N ->
  a2b_loop (String (table_b2a_base64 n) rest) q l p out =
  match q with
  | 0 => a2b_loop rest 1 n 0 out
  | 1 => a2b_loop rest 2 (n mod 16) 0 (out ++ [byte_of_N (l * 4 + n / 16)])
  | 2 => a2b_loop rest 3 (n mod 4) 0 (out ++ [byte_of_N (l * 16 + n / 4)])
  | _ => a2b_loop rest 0 0%N 0 (out ++ [byte_of_N (l * 64 + n)])
  end.
Proof.
  intros Hn. cbn [a2b_loop].
  rewrite table_b2a_not_pad, table_a2b_b2a by assumption. reflexivity.
Qed.

Lemma list_ind3 {A : Type} (P : list A -> Prop) :
  P [] -> (forall a, P [a]) -> (forall a b, P [a; b]) ->
  (forall a b c l, P l -> P (a :: b :: c :: l)) ->
  forall l, P l.
Proof.
  intros H0 H1 H2 H3.
  assert (Hall : forall l,
             P l /\ (forall a, P (a :: l)) /\ (forall a b, P (a :: b :: l))).
  { induction l as [|x l (IH0 & IH1 & IH2)]; [now auto|].
    split; [apply IH1|]. split; [intros a; apply IH2|].
    intros a b. now apply H3. }
  intros l. apply Hall.
Qed.

Lemma a2b_loop_b64encode (data : list byte) :
  forall l p out, a2b_loop (b64encode data) 0 l p out = Ok (out ++ data)%list.
Proof.
  induction data as [|a|a b|a b c rest IH] using list_ind3; intros l p out.
  - cbn. now rewrite app_nil_r.
  - cbn [b64encode]. pose proof (Byte.to_N_bounded a) as Ha.
    rewrite !a2b_loop_alpha by lia. cbn.
    replace (Byte.to_N a / 4 * 4 + Byte.to_N a mod 4 * 16 / 16)%N
      with (Byte.to_N a) by lia.
    now rewrite byte_of_to_N.
  - cbn [b64encode]. pose proof (Byte.to_N_bounded a) as Ha.
    pose proof (Byte.to_N_bounded b) as Hb.
    rewrite !a2b_loop_alpha by lia. cbn.
    replace (Byte.to_N a / 4 * 4
             + (Byte.to_N a mod 4 * 16 + Byte.to_N b / 16) / 16)%N
      with (Byte.to_N a) by lia.
    replace ((Byte.to_N a mod 4 * 16 + Byte.to_N b / 16) mod 16 * 16
             + Byte.to_N b mod 16 * 4 / 4)%N
      with (Byte.to_N b) by lia.
    rewrite !byte_of_to_N, <- app_assoc. reflexivity.
  - cbn [b64encode]. pose proof (Byte.to_N_bounded a) as Ha.
    pose proof (Byte.to_N_bounded b) as Hb.
    pose proof (Byte.to_N_bounded c) as Hc.
    rewrite !a2b_loop_alpha by lia. rewrite IH.
    replace (Byte.to_N a / 4 * 4
             + (Byte.to_N a mod 4 * 16 + Byte.to_N b / 16) / 16)%N
      with (Byte.to_N a) by lia.
    replace ((Byte.to_N a mod 4 * 16 + Byte.to_N b / 16) mod 16 * 16
             + (Byte.to_N b mod 16 * 4 + Byte.to_N c / 64) / 4)%N
      with (Byte.to_N b) by lia.
    replace ((Byte.to_N b mod 16 * 4 + Byte.to_N c / 64) mod 4 * 64
             + Byte.to_N c mod 64)%N
      with (Byte.to_N c) by lia.
    rewrite !byte_of_to_N, <- !app_assoc. reflexivity.
Qed.

Lemma is_ascii_b64encode (data : list byte) :
  is_ascii_str (b64encode data) = true.
Proof.
  induction data as [|a|a b|a b c rest IH] using list_ind3.
  - reflexivity.
  - cbn [b64encode is_ascii_str]. pose proof (Byte.to_N_bounded a).
    rewrite !table_b2a_ascii by lia. reflexivity.
  - cbn [b64encode is_ascii_str]. pose proof (Byte.to_N_bounded a).
    pose proof (Byte.to_N_bounded b).
    rewrite !table_b2a_ascii by lia. reflexivity.
  - cbn [b64encode is_ascii_str]. pose proof (Byte.to_N_bounded a).
    pose proof (Byte.to_N_bounded b). pose proof (Byte.to_N_bounded c).
    rewrite !table_b2a_ascii by lia. exact IH.
Qed.

(** Decoding what [b64encode] wrote gives the bytes back. *)
Lemma b64decode_b64encode (data : list byte) :
  b64decode (PStr (b64encode data)) = Ok data.
Proof.
  unfold b64decode, b64decode_str, a2b_base64.
  now rewrite is_ascii_b64encode, a2b_loop_b64encode.
Qed.

(** [b64encode] writes canonical base64 text. *)
Lemma is_base64_b64encode (data : list byte) :
  is_base64 (b64encode data) = true.
Proof.
  induction data as [|a|a b|a b c rest IH] using list_ind3.
  - reflexivity.
  - cbn [b64encode is_base64]. pose proof (Byte.to_N_bounded a).
    rewrite !is_alpha_b2a by lia. reflexivity.
  - cbn [b64encode is_base64]. pose proof (Byte.to_N_bounded a).
    pose proof (Byte.to_N_bounded b).
    rewrite !is_alpha_b2a by lia. reflexivity.
  - cbn [b64encode]. pose proof (Byte.to_N_bounded a).
    pose proof (Byte.to_N_bounded b). pose proof (Byte.to_N_bounded c).
    cbn [is_base64]. rewrite !is_alpha_b2a by lia. rewrite IH. cbn.
    now destruct (b64encode rest).
Qed.

End Base64Facts.

(** ** Running the monad *)

Section ProgramFacts.

Context {X Model GS : Type} (env : Env X Model GS).

Implicit Types (w : World X Model GS) (evs : list (Event Model GS)).

Ltac unfold_prims :=
  unfold uuid_uuid4, Image_open, Image_convert, rembg_remove, call, save_ply,
    print, traceback_print_exc, read_bytes, os_remove, os_path_exists,
    get_model, set_model in *;
  unfold mbind, M_bind, mret, M_ret, bind, ret, raise, lift, try_except,
    external, log in *.

Ltac run := unfold_prims; repeat (case_match; simplify_eq/=).

Lemma count_ev_app (f : Event Model GS -> bool) evs1 evs2 :
  count_ev f (evs1 ++ evs2) = count_ev f evs1 + count_ev f evs2.
Proof. unfold count_ev. now rewrite List.filter_app, length_app. Qed.

Lemma count_ev_none (f g : Event Model GS -> bool) evs :
  (forall ev, g ev = true -> f ev = false) ->
  forallb g evs = true -> count_ev f evs = 0.
Proof.
  intros Hfg. induction evs as [|ev evs IH]; [reflexivity|].
  cbn. intros [Hg Hall]%andb_prop. unfold count_ev in *. cbn.
  rewrite (Hfg ev Hg). now apply IH.
Qed.

Lemma forallb_In (g : Event Model GS -> bool) evs ev :
  forallb g evs = true -> In ev evs -> g ev = true.
Proof. intros Hall Hin. rewrite forallb_forall in Hall. now apply Hall. Qed.

(** *** [load_model] *)

Lemma load_model_loaded w m :
  model w = Some m -> load_model env w = (Ok m, w).
Proof. intros Hm. unfold load_model. unfold_prims. now rewrite Hm. Qed.

Lemma load_model_spec w r w1 :
  load_model env w = (r, w1) ->
  fs w1 = fs w
  /\ exists evs,
       trace w1 = (trace w ++ evs)%list
       /\ forallb is_load_event evs = true
       /\ count_ev is_construct evs <= 1
       /\ match r with
          | Ok m =>
              model w1 = Some m
              /\ (model w = None -> count_ev is_construct evs = 1)
          | Raise _ => model w1 = None /\ model w = None
          end.
Proof.
  intros H. unfold load_model in H. run; (split; [reflexivity|]).
  - exists []. rewrite app_nil_r. repeat split; auto. discriminate.
  - eexists. rewrite <- !app_assoc. split; [reflexivity|]. cbn. auto.
  - eexists. rewrite <- !app_assoc. split; [reflexivity|]. cbn. auto.
  - eexists. rewrite <- !app_assoc. split; [reflexivity|]. cbn. auto.
  - exists []. rewrite app_nil_r. cbn. auto.
Qed.

Lemma rgb_version_mode (img rgb : Image) :
  rgb_version env img rgb -> mode rgb = "RGB".
Proof. intros [[Hm ->]|[_ (planes & _ & ->)]]; [exact Hm|reflexivity]. Qed.

Lemma pipeline_ok_frame (input : Res Image) pre evs post :
  forallb is_plumbing pre = true -> forallb is_plumbing post = true ->
  pipeline_ok env input evs -> pipeline_ok env input (pre ++ evs ++ post).
Proof.
  intros Hpre Hpost (Hcount & Hrembg & Hcall).
  assert (Hin : forall ev, is_plumbing ev = false ->
                  In ev (pre ++ evs ++ post) -> In ev evs).
  { intros ev Hev [Hin|[Hin|Hin]%in_app_or]%in_app_or; [|exact Hin|].
    - rewrite (forallb_In _ _ _ Hpre Hin) in Hev. discriminate.
    - rewrite (forallb_In _ _ _ Hpost Hin) in Hev. discriminate. }
  split; [|split].
  - rewrite !count_ev_app.
    rewrite (count_ev_none is_call is_plumbing pre),
      (count_ev_none is_call is_plumbing post); auto.
    + lia.
    + intros ev. unfold is_plumbing. now destruct (is_call ev).
    + intros ev. unfold is_plumbing. now destruct (is_call ev).
  - intros rgb r Hev. apply (Hrembg rgb r). now apply Hin.
  - intros m image mask seed r Hev. apply Hin in Hev; [|reflexivity].
    destruct (Hcall m image mask seed r Hev)
      as (Hseed & img & rgb & removed & alpha & H1 & H2 & H3 & H4).
    split; [exact Hseed|]. exists img, rgb, removed, alpha.
    repeat split; try tauto. apply in_or_app. right. apply in_or_app. now left.
Qed.

Lemma load_events_plumbing evs :
  forallb is_load_event evs = true ->
  forallb (@is_plumbing Model GS) evs = true.
Proof.
  rewrite !forallb_forall. intros H ev Hin. specialize (H ev Hin).
  now destruct ev.
Qed.

Lemma pipeline_ok_pre (input : Res Image) pre evs :
  forallb is_plumbing pre = true ->
  pipeline_ok env input evs -> pipeline_ok env input (pre ++ evs).
Proof.
  intros Hpre Hok. rewrite <- (app_nil_r evs). now apply pipeline_ok_frame.
Qed.

Lemma pipeline_ok_post (input : Res Image) evs post :
  forallb is_plumbing post = true ->
  pipeline_ok env input evs -> pipeline_ok env input (evs ++ post).
Proof. intros Hpost Hok. now apply (pipeline_ok_frame input [] evs post). Qed.

Lemma pipeline_ok_plumbing (input : Res Image) evs :
  forallb is_plumbing evs = true -> pipeline_ok env input evs.
Proof.
  intros Hall. split; [|split].
  - rewrite (count_ev_none is_call is_plumbing); [lia| |exact Hall].
    intros ev. unfold is_plumbing. now destruct (is_call ev).
  - intros rgb r Hin. now apply (forallb_In _ _ _ Hall) in Hin.
  - intros m image mask seed r Hin. now apply (forallb_In _ _ _ Hall) in Hin.
Qed.

Lemma rgb_version_same (img : Image) :
  negb (mode img =? "RGB") = false -> rgb_version env img img.
Proof.
  intros H. left. split; [|reflexivity].
  apply negb_false_iff in H. now apply String.eqb_eq.
Qed.

Lemma rgb_version_convert (img : Image) planes :
  negb (mode img =? "RGB") = true ->
  PIL_convert env img "RGB" = Ok planes ->
  rgb_version env img (mkImage "RGB" (size img) planes).
Proof.
  intros H Hc. right. split; [|now exists planes].
  apply negb_true_iff in H. now apply String.eqb_neq.
Qed.

Ltac solve_rgb :=
  first [ assumption
        | apply rgb_version_same; assumption
        | apply rgb_version_convert; eassumption ].

Ltac inv_In H :=
  cbn in H;
  repeat match type of H with
         | _ \/ _ => destruct H as [H|H]; [try discriminate; simplify_eq|]
         | False => contradiction
         end.

Ltac find_In := cbn; repeat first [ left; reflexivity | right ].

Ltac solve_pipeline :=
  first
    [ apply pipeline_ok_plumbing; first [ assumption | reflexivity ]
    | split; [cbn; lia|]; split;
      [ intros ? ? Hin; inv_In Hin;
        (eexists; split; [reflexivity|solve_rgb])
      | intros ? ? ? ? ? Hin; inv_In Hin;
        (split; [reflexivity|];
         do 4 eexists; split; [reflexivity|]; split; [solve_rgb|];
         split; [find_In|]; split; [eassumption|]; split; reflexivity) ] ].

Lemma process_try_events (img : Image) w r w' :
  process_try env img w = (r, w') ->
  exists evs, trace w' = (trace w ++ evs)%list /\ pipeline_ok env (Ok img) evs.
Proof.
  intros H. unfold process_try in H. run.
  all: match goal with
       | Hl : load_model env _ = _ |- _ =>
           apply load_model_spec in Hl
             as (_ & evsL & -> & HL%load_events_plumbing & _)
       end.
  all: rewrite <- ?app_assoc; cbn [app].
  all: eexists; (split; [reflexivity|]).
  all: try (apply pipeline_ok_pre; [exact HL|]).
  all: solve_pipeline.
Qed.
Ltac use_load_model :=
  match goal with
  | Hl : load_model env _ = _ |- _ =>
      let Hfs := fresh "Hfs" in
      let Htr := fresh "Htr" in
      let HL := fresh "HL" in
      pose proof (load_model_spec _ _ _ Hl) as (Hfs & ? & Htr & HL & _)
  end.

Ltac build_processed :=
  match goal with
  | Hl : load_model env ?w = (Ok ?m, ?wl),
    Htr : trace ?wl = (trace ?w ++ ?evsL)%list,
    Hm : negb (mode ?img =? "RGB") = _,
    HL : forallb is_load_event ?evsL = true,
    Hu : uuid4 env _ = (?run_id, ?x2),
    Hr : rembg env ?rgb _ = (Ok ?removed, ?x3),
    Hp : py_last _ = Ok ?alpha,
    Hc : Inference_call _ _ _ _ _ _ = (Ok ?output, ?x4),
    Hg : output_gs _ = Ok ?g,
    Hs : gs_save_ply _ _ _ _ = (Ok ?content, ?x5) |- _ =>
      let Hrgb := fresh "Hrgb" in
      let Hproc := fresh "Hproc" in
      assert (Hrgb : rgb_version env img rgb) by solve_rgb;
      pose proof (processed_intro env img w m wl evsL run_id x2 rgb removed
                    x3 alpha output x4 g content x5 Hl Htr HL Hu Hrgb Hr Hp
                    Hc Hg Hs) as Hproc;
      unfold success_events in Hproc;
      rewrite Hm in Hproc;
      cbn [app] in Hproc
  end.

Lemma process_try_Ok (img : Image) w p w1 :
  process_try env img w = (Ok p, w1) ->
  exists run_id content evs,
    processed env img w run_id content evs w1
    /\ p = (Some (ply_path env run_id), Some (ply_path env run_id)).
Proof.
  intros H. unfold process_try in H. run; use_load_model.
  all: build_processed.
  all: do 3 eexists; (split; [|reflexivity]).
  all: rewrite Hfs, Htr, <- !app_assoc; cbn [app]; exact Hproc.
Qed.

Ltac forward :=
  unfold_prims;
  repeat first
    [ progress cbn beta iota zeta delta [model fs ext trace]
    | rewrite lookup_insert_eq
    | rewrite bool_decide_eq_true_2 by eauto
    | match goal with
      | Heq : ?t = _ |- context [match ?t with _ => _ end] => rewrite Heq
      | Heq : ?t = _ |- context [if ?t then _ else _] => rewrite Heq
      end ].

Lemma handler_try_process_try (job_input : pyval) (img : Image) w :
  decode_image env job_input = Ok img ->
  match process_try env img w with
  | (Ok p, w1) =>
      exists run_id content evs,
        processed env img w run_id content evs w1
        /\ p = (Some (ply_path env run_id), Some (ply_path env run_id))
        /\ handler_try env job_input w =
           (Ok {[ "ply" := PStr (b64encode content);
                  "filename" := PStr (ply_name run_id) ]},
            after_cleanup (ply_path env run_id) content w1)
  | (Raise e, w1) => handler_try env job_input w = (Raise e, w1)
  end.
Proof.
  intros Hd. destruct (process_try env img w) as [[p|e] w1] eqn:Hp.
  - unfold process_try in Hp. unfold decode_image in Hd.
    run; use_load_model; build_processed.
    all: do 3 eexists; split;
      [rewrite Hfs, Htr, <- !app_assoc; cbn [app]; exact Hproc|].
    all: split; [reflexivity|].
    all: unfold handler_try, after_cleanup, ply_path, ply_name; forward.
    all: rewrite <- !app_assoc; reflexivity.
  - unfold process_try in Hp. unfold decode_image in Hd.
    run; unfold handler_try; forward; reflexivity.
Qed.

Lemma handler_try_undecoded (job_input : pyval) (e : exn) w :
  decode_image env job_input = Raise e ->
  handler_try env job_input w =
  match load_model env w with
  | (Ok _, w1) => (Raise e, w1)
  | (Raise e', w1) => (Raise e', w1)
  end.
Proof.
  intros Hd. unfold decode_image in Hd. unfold handler_try.
  destruct (load_model env w) as [[m|e'] w1] eqn:Hl; run; forward; reflexivity.
Qed.

(** *** The two entry points around their [try] blocks *)

Lemma process_unfold (img : Image) w :
  process env (Some img) w =
  match process_try env img w with
  | (Ok p, w1) => (Ok p, w1)
  | (Raise e, w1) => (Raise (gr_Error e), after_traceback e w1)
  end.
Proof.
  unfold process, process_except, try_except.
  destruct (process_try env img w) as [[p|e] w1]; reflexivity.
Qed.

Lemma handler_unfold (job : gmap string pyval) (job_input : pyval) w :
  job !! "input" = Some job_input ->
  handler env job w =
  match py_contains "image" job_input with
  | Raise e => (Raise e, w)
  | Ok false => (Ok {[ "error" := PStr NO_IMAGE ]}, w)
  | Ok true =>
      match handler_try env job_input w with
      | (Ok out, w1) => (Ok out, w1)
      | (Raise e, w1) =>
          (Ok {[ "error" := PStr (exn_str e) ]}, after_traceback e w1)
      end
  end.
Proof.
  intros Hin. unfold handler, handler_except, py_getitem. rewrite Hin.
  unfold_prims.
  destruct (py_contains "image" job_input) as [[|]|e]; reflexivity.
Qed.

Lemma handler_no_input (job : gmap string pyval) w :
  job !! "input" = None ->
  handler env job w = (Raise (Exn "KeyError" "'input'"), w).
Proof.
  intros Hin. unfold handler, py_getitem. rewrite Hin. reflexivity.
Qed.

(** *** What a run that reached the end has done *)

Lemma processed_facts (img : Image) w run_id content evs w1 :
  processed env img w run_id content evs w1 ->
  trace w1 = (trace w ++ evs)%list
  /\ fs w1 = <[ply_path env run_id := content]> (fs w)
  /\ count_ev is_call evs = 1
  /\ count_ev is_save evs = 1
  /\ count_ev is_uuid evs = 1
  /\ In (EvUuid4 run_id) evs
  /\ exists m rgb alpha output g,
       In (EvCall m (astype_uint8 (np_array rgb)) (np_gt0 (np_array alpha)) 42
             (Ok output)) evs
       /\ output_gs output = Ok g
       /\ In (EvSavePly g (ply_path env run_id) (Ok content)) evs.
Proof.
  intros [m wl evsL rid x2 rgb removed x3 alpha output x4 g cont x5
            Hl Htr HL Hu Hrgb Hr Hp Hc Hg Hs].
  assert (Hnone : forall f,
             (forall ev, is_load_event ev = true -> f ev = false) ->
             count_ev f evsL = 0).
  { intros f Hf. now apply (count_ev_none f is_load_event). }
  split; [reflexivity|]. split; [reflexivity|].
  rewrite !count_ev_app.
  rewrite (Hnone is_call), (Hnone is_save), (Hnone is_uuid)
    by (intros []; cbn; congruence).
  unfold success_events.
  destruct (negb (mode img =? "RGB")); cbn [app].
  all: repeat (split; [reflexivity|]).
  all: split; [apply in_or_app; right; find_In|].
  all: exists m, rgb, alpha, output, g.
  all: split; [apply in_or_app; right; find_In|].
  all: split; [exact Hg|apply in_or_app; right; find_In].
Qed.

(** *** The events of the handler, however the job ends *)

Lemma handler_try_events (job_input : pyval) w r w1 :
  handler_try env job_input w = (r, w1) ->
  exists evs,
    trace w1 = (trace w ++ evs)%list
    /\ pipeline_ok env (decode_image env job_input) evs.
Proof.
  intros Hh. destruct (decode_image env job_input) as [img|e] eqn:Hd.
  - pose proof (handler_try_process_try job_input img w Hd) as Hrel.
    destruct (process_try env img w) as [[p|e] wp] eqn:Hp.
    + destruct Hrel as (run_id & content & evs & Hproc & _ & Hrel).
      apply process_try_events in Hp as (evs' & Htr & Hok).
      rewrite Hrel in Hh. simplify_eq. cbn [trace after_cleanup].
      exists (evs' ++ [EvRead (ply_path env run_id) content;
                       EvRemove (ply_path env run_id)])%list.
      split; [now rewrite Htr, app_assoc|].
      now apply pipeline_ok_post.
    + apply process_try_events in Hp as (evs' & Htr & Hok).
      rewrite Hrel in Hh. simplify_eq. now exists evs'.
  - rewrite (handler_try_undecoded _ e) in Hh by exact Hd.
    destruct (load_model env w) as [[m|e'] wl] eqn:Hl; simplify_eq.
    all: apply load_model_spec in Hl as (_ & evsL & Htr & HL & _).
    all: exists evsL; split; [exact Htr|].
    all: now apply pipeline_ok_plumbing, load_events_plumbing.
Qed.

Lemma handler_events (job : gmap string pyval) (job_input : pyval) w r w' :
  job !! "input" = Some job_input ->
  handler env job w = (r, w') ->
  exists evs,
    trace w' = (trace w ++ evs)%list
    /\ pipeline_ok env (decode_image env job_input) evs.
Proof.
  intros Hin Hh. rewrite (handler_unfold job job_input w Hin) in Hh.
  destruct (py_contains "image" job_input) as [[|]|e].
  - destruct (handler_try env job_input w) as [[out|e] w1] eqn:Ht.
    all: apply handler_try_events in Ht as (evs & Htr & Hok); simplify_eq.
    + now exists evs.
    + exists (evs ++ [EvTraceback e])%list. cbn. split.
      * now rewrite Htr, app_assoc.
      * now apply pipeline_ok_post.
  - simplify_eq. exists []. rewrite app_nil_r. split; [reflexivity|].
    now apply pipeline_ok_plumbing.
  - simplify_eq. exists []. rewrite app_nil_r. split; [reflexivity|].
    now apply pipeline_ok_plumbing.
Qed.

Lemma process_events (img : Image) w r w' :
  process env (Some img) w = (r, w') ->
  exists evs,
    trace w' = (trace w ++ evs)%list /\ pipeline_ok env (Ok img) evs.
Proof.
  intros Hp. rewrite process_unfold in Hp.
  destruct (process_try env img w) as [[p|e] w1] eqn:Ht.
  all: apply process_try_events in Ht as (evs & Htr & Hok); simplify_eq.
  - now exists evs.
  - exists (evs ++ [EvTraceback e])%list. cbn. split.
    + now rewrite Htr, app_assoc.
    + now apply pipeline_ok_post.
Qed.

(** *** A handler run that returned the file *)

Lemma handler_try_Ok (job_input : pyval) w out w' :
  handler_try env job_input w = (Ok out, w') ->
  exists img run_id content evs wp,
    decode_image env job_input = Ok img
    /\ processed env img w run_id content evs wp
    /\ process_try env img w
       = (Ok (Some (ply_path env run_id), Some (ply_path env run_id)), wp)
    /\ out = {[ "ply" := PStr (b64encode content);
                "filename" := PStr (ply_name run_id) ]}
    /\ w' = after_cleanup (ply_path env run_id) content wp.
Proof.
  intros Hh. destruct (decode_image env job_input) as [img|e] eqn:Hd.
  - pose proof (handler_try_process_try job_input img w Hd) as Hrel.
    destruct (process_try env img w) as [[p|e] wp] eqn:Hp.
    + destruct Hrel as (run_id & content & evs & Hproc & -> & Hrel).
      rewrite Hrel in Hh. simplify_eq.
      exists img, run_id, content, evs, wp. auto.
    + rewrite Hrel in Hh. discriminate.
  - rewrite (handler_try_undecoded _ e) in Hh by exact Hd.
    destruct (load_model env w) as [[m|e'] wl]; discriminate.
Qed.

Lemma handler_Ok (job : gmap string pyval) w out w' :
  handler env job w = (Ok out, w') ->
  out !! "error" = None ->
  exists job_input img run_id content evs wp,
    job !! "input" = Some job_input
    /\ decode_image env job_input = Ok img
    /\ processed env img w run_id content evs wp
    /\ out = {[ "ply" := PStr (b64encode content);
                "filename" := PStr (ply_name run_id) ]}
    /\ w' = after_cleanup (ply_path env run_id) content wp.
Proof.
  intros Hh Hne. destruct (job !! "input") as [job_input|] eqn:Hin.
  2: { rewrite handler_no_input in Hh by exact Hin. discriminate. }
  rewrite (handler_unfold job job_input w Hin) in Hh.
  destruct (py_contains "image" job_input) as [[|]|e];
    [|simplify_eq; now rewrite lookup_singleton_eq in Hne|discriminate].
  destruct (handler_try env job_input w) as [[o|e] w1] eqn:Ht;
    [|simplify_eq; now rewrite lookup_singleton_eq in Hne].
  simplify_eq.
  apply handler_try_Ok in Ht
    as (img & run_id & content & evs & wp & Hd & Hproc & _ & -> & ->).
  exists job_input, img, run_id, content, evs, wp. auto.
Qed.

(** *** The global [model] once it is set *)

Lemma process_keeps_model (input_image : option Image) w m :
  model w = Some m -> model (snd (process env input_image w)) = Some m.
Proof.
  intros Hm. destruct input_image as [img|]; [|exact Hm].
  unfold process, process_except, process_try.
  pose proof (load_model_loaded w m Hm) as Hl.
  unfold_prims. rewrite Hl. run; assumption.
Qed.

Lemma handler_keeps_model (job : gmap string pyval) w m :
  model w = Some m -> model (snd (handler env job w)) = Some m.
Proof.
  intros Hm. unfold handler, handler_except, handler_try.
  pose proof (load_model_loaded w m Hm) as Hl.
  unfold_prims. run; try assumption.
  all: rewrite Hl in *; simplify_eq; assumption.
Qed.

(** *** Paths and arrays *)

Lemma prefix_sep (s : string) : String.prefix "/" (String "/" s) = true.
Proof. apply String.prefix_correct. cbn. now destruct s. Qed.

Lemma os_path_abspath_isabs (p : string) :
  os_path_isabs (os_path_abspath env p) = true.
Proof.
  unfold os_path_abspath, os_path_join.
  destruct (os_path_isabs p) eqn:Hp; [exact Hp|].
  unfold os_getcwd, os_path_isabs.
  destruct (ends_with_sep _); apply prefix_sep.
Qed.

Lemma nth_flat_map_pixel (a : list Z) (n k : nat) :
  k < n -> nth k (flat_map (pixel [a]) (seq 0 n)) 0%Z = nth k a 0%Z.
Proof.
  intros Hk.
  replace (flat_map (pixel [a]) (seq 0 n))
    with (map (fun i => nth i a 0%Z) (seq 0 n)).
  - rewrite (nth_indep _ 0%Z (nth 0 a 0%Z))
      by now rewrite length_map, length_seq.
    rewrite (map_nth (fun i => nth i a 0%Z) (seq 0 n) 0 k).
    now rewrite seq_nth.
  - induction (seq 0 n) as [|i l IH]; [reflexivity|]. cbn. now rewrite IH.
Qed.

Lemma alpha_mask md (width height : nat) (planes : list (list Z)) (a : list Z)
    (alpha : Image) :
  py_last (Image_split (mkImage md (width, height) (planes ++ [a])))
  = Ok alpha ->
  arr_dtype (np_gt0 (np_array alpha)) = np_bool
  /\ shape (np_gt0 (np_array alpha)) = [height; width]
  /\ forall i j, i < height -> j < width ->
       nth (i * width + j) (data (np_gt0 (np_array alpha))) 0%Z
       = Z.b2z (0 <? nth (i * width + j) a 0)%Z.
Proof.
  intros Hlast.
  assert (Halpha : bands alpha = [a] /\ size alpha = (width, height)).
  { destruct planes as [|p1 planes].
    - cbn in Hlast. now simplify_eq.
    - assert (Hne : exists p2 rest, (planes ++ [a])%list = p2 :: rest)
        by (destruct planes; cbn; eauto).
      destruct Hne as (p2 & rest & Hrest).
      unfold py_last, Image_split in Hlast. cbn [bands size app] in Hlast.
      rewrite Hrest in Hlast. cbv iota in Hlast. rewrite <- Hrest in Hlast.
      change (p1 :: planes ++ [a])%list with ((p1 :: planes) ++ [a])%list
        in Hlast.
      rewrite map_app in Hlast.
      change (map ?f [a]) with [f a] in Hlast.
      rewrite last_snoc in Hlast. now simplify_eq. }
  destruct Halpha as [Hb Hs]. unfold np_gt0, np_array. rewrite Hs, Hb. cbn.
  repeat split. intros i j Hi Hj.
  assert (Hk : i * width + j < height * width) by nia.
  rewrite (nth_indep _ 0%Z (Z.b2z (0 <? 0)%Z)).
  - rewrite (map_nth (fun v => Z.b2z (0 <? v)%Z)).
    now rewrite nth_flat_map_pixel.
  - rewrite length_map.
    replace (flat_map (pixel [a]) (seq 0 (height * width)))
      with (map (fun i => nth i a 0%Z) (seq 0 (height * width))).
    + now rewrite length_map, length_seq.
    + induction (seq 0 (height * width)) as [|x l IH]; [reflexivity|].
      cbn. now rewrite IH.
Qed.

Lemma handler_output_total (job : gmap string pyval) (job_input : pyval) w :
  job !! "input" = Some job_input ->
  (exists b, py_contains "image" job_input = Ok b) ->
  exists out w', handler env job w = (Ok out, w').
Proof.
  intros Hin [b Hb]. rewrite (handler_unfold job job_input w Hin), Hb.
  destruct b; [|now eexists _, _].
  destruct (handler_try env job_input w) as [[out|e] w1]; now eexists _, _.
Qed.

(** The events of a request on [img], through either entry point. *)
Lemma request_events (img : Image) w w' :
  w' = snd (process env (Some img) w)
  \/ (exists job job_input,
        job !! "input" = Some job_input
        /\ decode_image env job_input = Ok img
        /\ w' = snd (handler env job w)) ->
  exists evs,
    trace w' = (trace w ++ evs)%list /\ pipeline_ok env (Ok img) evs.
Proof.
  intros [-> | (job & job_input & Hin & Hd & ->)].
  - destruct (process env (Some img) w) as [r w1] eqn:Hp.
    now apply process_events in Hp.
  - destruct (handler env job w) as [r w1] eqn:Hh.
    apply (handler_events job job_input) in Hh; [|exact Hin].
    now rewrite Hd in Hh.
Qed.

(** *** Requests that run to the end *)

Lemma processed_steps (img : Image) w run_id content evs w1 :
  processed env img w run_id content evs w1 ->
  exists m rgb removed alpha output before after,
    rgb_version env img rgb
    /\ py_last (Image_split removed) = Ok alpha
    /\ evs = (before
              ++ [EvRembg rgb (Ok removed)]
              ++ [EvPrint "Running Inference..."]
              ++ [EvCall m (astype_uint8 (np_array rgb))
                    (np_gt0 (np_array alpha)) 42 (Ok output)]
              ++ after)%list
    /\ (mode img <> "RGB" -> In (EvConvert img "RGB" (Ok rgb)) before).
Proof.
  destruct 1 as [m wl evsL run_id x2 rgb removed x3 alpha output x4 g
                   content x5 Hl Htr HL Hu Hrgb Hr Hlast Hc Hg Hs].
  exists m, rgb, removed, alpha, output,
    (evsL
     ++ (EvUuid4 run_id
           :: (if negb (mode img =? "RGB") then [EvConvert img "RGB" (Ok rgb)]
               else []))
     ++ [EvPrint "removing background..."])%list,
    [EvSavePly g (ply_path env run_id) (Ok content);
     EvPrint ("Saved to " ++ ply_path env run_id)].
  split; [exact Hrgb|]. split; [exact Hlast|]. split.
  - unfold success_events. now rewrite <- !app_assoc.
  - intros Hm. apply in_or_app. right. apply in_or_app. left. right.
    destruct (String.eqb_spec (mode img) "RGB") as [Heq|_]; [contradiction|].
    now left.
Qed.

Lemma completed_processed (img : Image) w w' :
  completed env img w w' ->
  exists run_id content evs wp post,
    processed env img w run_id content evs wp
    /\ trace w' = (trace w ++ evs ++ post)%list.
Proof.
  intros [(p & Hp)|(job & job_input & out & Hin & Hd & Hh & Hne)].
  - rewrite process_unfold in Hp.
    destruct (process_try env img w) as [[p0|e] w1] eqn:Ht; simplify_eq.
    apply process_try_Ok in Ht as (run_id & content & evs & Hproc & _).
    exists run_id, content, evs, w', []. split; [exact Hproc|].
    apply processed_facts in Hproc as (Htr & _). now rewrite app_nil_r.
  - apply handler_Ok in Hh
      as (ji & img0 & run_id & content & evs & wp & Hin' & Hd' & Hproc & _ & ->);
      [|exact Hne].
    simplify_eq. rewrite Hd in Hd'. simplify_eq.
    exists run_id, content, evs, wp,
      [EvRead (ply_path env run_id) content; EvRemove (ply_path env run_id)].
    split; [exact Hproc|].
    apply processed_facts in Hproc as (Htr & _).
    cbn [after_cleanup trace]. now rewrite Htr, <- app_assoc.
Qed.

Lemma completed_steps (img : Image) w w' evs :
  completed env img w w' ->
  trace w' = (trace w ++ evs)%list ->
  exists m rgb removed alpha output before after,
    rgb_version env img rgb
    /\ py_last (Image_split removed) = Ok alpha
    /\ evs = (before
              ++ [EvRembg rgb (Ok removed)]
              ++ [EvPrint "Running Inference..."]
              ++ [EvCall m (astype_uint8 (np_array rgb))
                    (np_gt0 (np_array alpha)) 42 (Ok output)]
              ++ after)%list
    /\ (mode img <> "RGB" -> In (EvConvert img "RGB" (Ok rgb)) before).
Proof.
  intros Hc Htr.
  apply completed_processed in Hc
    as (run_id & content & evs0 & wp & post & Hproc & Htr').
  rewrite Htr in Htr'. apply app_inv_head in Htr'. subst evs.
  apply processed_steps in Hproc
    as (m & rgb & removed & alpha & output & before & after
        & Hrgb & Hlast & -> & Hconv).
  exists m, rgb, removed, alpha, output, before, (after ++ post)%list.
  split; [exact Hrgb|]. split; [exact Hlast|]. split; [|exact Hconv].
  now rewrite <- !app_assoc.
Qed.

(** ** The claims *)

(** C8. Called with [None] as input image, [process] returns the pair
    [(None, None)] at once: no exception, and the world (the global [model],
    the files, the collaborators' state, the trace of calls) is untouched,
    so neither the loader, the remover nor the model was invoked. *)
Theorem process_None w : process env None w = (Ok (None, None), w).
Proof. reflexivity. Qed.

(** C4. Model loading is lazy and happens at most once.  Whenever
    [load_model] returns [m]: the global then holds [m]; the [Inference]
    constructor ran during the call exactly when the global was [None]
    before (once), and not at all when it already held an object, in which
    case that stored object is returned and nothing changes; every later
    call returns the same [m] and leaves the world as it is; and neither
    entry point resets the global. *)
Theorem load_model_lazy_once w m w1 :
  load_model env w = (Ok m, w1) ->
  model w1 = Some m
  /\ (exists evs,
        trace w1 = (trace w ++ evs)%list
        /\ count_ev is_construct evs
           = match model w with None => 1 | Some _ => 0 end)
  /\ (forall m0, model w = Some m0 -> m = m0 /\ w1 = w)
  /\ load_model env w1 = (Ok m, w1)
  /\ (forall n, Nat.iter n (fun w' => snd (load_model env w')) w1 = w1)
  /\ (forall input_image job,
        model (snd (process env input_image w1)) = Some m
        /\ model (snd (handler env job w1)) = Some m).
Proof.
  intros Hl.
  pose proof (load_model_spec w (Ok m) w1 Hl)
    as (_ & evs & Htr & _ & _ & Hm & Hone).
  assert (Hidem : load_model env w1 = (Ok m, w1))
    by now apply load_model_loaded.
  split; [exact Hm|]. split; [|split; [|split; [exact Hidem|split]]].
  - destruct (model w) as [m0|] eqn:Hw.
    + rewrite (load_model_loaded w m0 Hw) in Hl. simplify_eq.
      exists []. now rewrite app_nil_r.
    + exists evs. auto.
  - intros m0 Hw. rewrite (load_model_loaded w m0 Hw) in Hl. now simplify_eq.
  - induction n as [|n IH]; [reflexivity|].
    rewrite Nat.iter_succ, IH, Hidem. reflexivity.
  - intros input_image job.
    split; [now apply process_keeps_model|now apply handler_keeps_model].
Qed.

(** C7. A successful request of the web demo hands one and the same path to
    the 3D preview and to the file download: the absolute path of
    [output_<run_id>.ply], the file [save_ply] has just written and that is
    on disk when [process] returns. *)
Theorem process_returns_saved_path (img : Image) w preview download w' :
  process env (Some img) w = (Ok (preview, download), w') ->
  exists run_id content,
    preview = Some (ply_path env run_id)
    /\ download = Some (ply_path env run_id)
    /\ os_path_isabs (ply_path env run_id) = true
    /\ fs w' !! ply_path env run_id = Some content
    /\ exists evs g,
         trace w' = (trace w ++ evs)%list
         /\ In (EvUuid4 run_id) evs
         /\ In (EvSavePly g (ply_path env run_id) (Ok content)) evs.
Proof.
  intros Hp. rewrite process_unfold in Hp.
  destruct (process_try env img w) as [[p|e] w1] eqn:Ht; [|discriminate].
  simplify_eq.
  apply process_try_Ok in Ht as (run_id & content & evs & Hproc & Hpaths).
  apply processed_facts in Hproc
    as (Htr & Hfs & _ & _ & _ & Huuid
        & m & rgb & alpha & output & g & _ & _ & Hsave).
  simplify_eq. exists run_id, content.
  repeat split; [apply os_path_abspath_isabs| |].
  - rewrite Hfs. apply lookup_insert_eq.
  - now exists evs, g.
Qed.

(** X17. For every job whose ['input'] is a JSON object, array or string,
    the handler returns, and what it returns is either
    [{"ply": base64 text, "filename": string}] or [{"error": string}]; when
    the input is an object without an ['image'] key, it is the
    [{"error": ...}] object of the validation step and the world is
    untouched: the model was neither loaded nor called. *)
Theorem handler_output_shape (job : gmap string pyval) (job_input : pyval) w :
  job !! "input" = Some job_input ->
  is_container job_input = true ->
  exists out w',
    handler env job w = (Ok out, w')
    /\ (is_ply_output out \/ is_error_output out)
    /\ (forall d, job_input = PDict d -> d !! "image" = None ->
          out = {[ "error" := PStr NO_IMAGE ]} /\ w' = w).
Proof.
  intros Hin Hc. rewrite (handler_unfold job job_input w Hin).
  assert (Hpc : exists b, py_contains "image" job_input = Ok b)
    by (destruct job_input; try discriminate; cbn; eauto).
  destruct Hpc as [b Hb]. rewrite Hb. destruct b.
  - assert (Hd : forall d, job_input = PDict d -> d !! "image" <> None).
    { intros d -> Hnone. cbn in Hb. rewrite Hnone in Hb.
      rewrite bool_decide_eq_false_2 in Hb by (intros [? ?]; discriminate).
      discriminate. }
    destruct (handler_try env job_input w) as [[out|e] w1] eqn:Ht.
    + apply handler_try_Ok in Ht
        as (img & run_id & content & evs & wp & _ & _ & _ & -> & ->).
      eexists _, _. split; [reflexivity|]. split.
      * left. eexists _, _. split; [reflexivity|apply is_base64_b64encode].
      * intros d -> Hnone. now destruct (Hd d eq_refl).
    + eexists _, _. split; [reflexivity|]. split.
      * right. now eexists.
      * intros d -> Hnone. now destruct (Hd d eq_refl).
  - eexists _, _. split; [reflexivity|]. split; [right; now eexists|auto].
Qed.

(** X18. Once a job's input has passed the ['image' in job_input] test,
    every exception raised inside the handler's [try]
    block (loading, decoding, conversion, background removal, inference,
    saving, reading back) is turned into a returned [{"error": str(e)}]
    object, so that for an input that is a JSON object, array or string
    the handler never propagates anything; and in the UI every exception
    raised while an image is processed is re-raised as the Gradio error
    [Error processing image: <str(e)>], the only exception [process] can
    raise. *)
Theorem failures_caught_at_top_level (job : gmap string pyval)
    (job_input : pyval) (img : Image) w :
  job !! "input" = Some job_input ->
  is_container job_input = true ->
  (exists has_image, py_contains "image" job_input = Ok has_image)
  /\ (forall e w1,
        py_contains "image" job_input = Ok true ->
        handler_try env job_input w = (Raise e, w1) ->
        handler env job w
        = (Ok {[ "error" := PStr (exn_str e) ]}, after_traceback e w1))
  /\ (exists out w', handler env job w = (Ok out, w'))
  /\ (forall e w1,
        process_try env img w = (Raise e, w1) ->
        process env (Some img) w = (Raise (gr_Error e), after_traceback e w1))
  /\ (forall input_image e w',
        process env input_image w = (Raise e, w') ->
        exists e0, e = gr_Error e0).
Proof.
  intros Hin Hc.
  assert (Hpc : exists b, py_contains "image" job_input = Ok b)
    by (destruct job_input; try discriminate; cbn; eauto).
  split; [exact Hpc|]. split; [|split; [|split]].
  - intros e w1 Hb Ht. rewrite (handler_unfold job job_input w Hin), Hb, Ht.
    reflexivity.
  - destruct (handler_output_total job job_input w Hin Hpc) as (out & w' & H).
    now exists out, w'.
  - intros e w1 Ht. now rewrite process_unfold, Ht.
  - intros [img0|] e w' Hp; [|discriminate].
    rewrite process_unfold in Hp.
    destruct (process_try env img0 w) as [[p|e0] w1]; simplify_eq.
    now exists e0.
Qed.

(** C3. On the same image bytes the two entry points perform the same
    computation.  Let the job carry base64 text that decodes to bytes PIL
    opens as [img], and let [process] receive that [img], both from world
    [w].  Either both succeed, through one and the same run of the shared
    steps (same RGB conversion, same uint8 array, same mask, same call with
    seed 42, same saved bytes, same state of the collaborators): [process]
    returns the path of the saved file, the handler returns the base64 text
    of that file's bytes and differs only by having read the file back and
    removed it; or both fail on the same exception, in the same world,
    [process] raising the Gradio error and the handler returning the
    error object. *)
Theorem handler_process_same_computation (job d : gmap string pyval)
    (image_b64 : pyval) (image_data : list byte) (img : Image) w :
  job !! "input" = Some (PDict d) ->
  d !! "image" = Some image_b64 ->
  b64decode image_b64 = Ok image_data ->
  PIL_open env image_data = Ok img ->
  match process env (Some img) w, handler env job w with
  | (Ok p, w1), (Ok out, w2) =>
      exists run_id content evs,
        processed env img w run_id content evs w1
        /\ p = (Some (ply_path env run_id), Some (ply_path env run_id))
        /\ fs w1 !! ply_path env run_id = Some content
        /\ out = {[ "ply" := PStr (b64encode content);
                    "filename" := PStr (ply_name run_id) ]}
        /\ w2 = after_cleanup (ply_path env run_id) content w1
  | (Raise e1, w1), (Ok out, w2) =>
      exists e,
        e1 = gr_Error e /\ out = {[ "error" := PStr (exn_str e) ]} /\ w2 = w1
  | _, _ => False
  end.
Proof.
  intros Hin Himg Hb64 Hopen.
  assert (Hd : decode_image env (PDict d) = Ok img).
  { unfold decode_image. cbn. now rewrite Himg, Hb64. }
  rewrite process_unfold, (handler_unfold job (PDict d) w Hin). cbn.
  rewrite Himg, bool_decide_eq_true_2 by eauto.
  pose proof (handler_try_process_try (PDict d) img w Hd) as Hrel.
  destruct (process_try env img w) as [[p|e] w1] eqn:Ht.
  - destruct Hrel as (run_id & content & evs & Hproc & -> & ->).
    exists run_id, content, evs. repeat split; try assumption.
    apply processed_facts in Hproc as (_ & -> & _).
    apply lookup_insert_eq.
  - rewrite Hrel. now exists e.
Qed.

(** C5. In both entry points the mask handed to the model is the boolean
    array [alpha > 0] of the last band of what the background remover
    returned for the RGB version of the input image: an array of dtype bool,
    one entry per pixel, with entry (i, j) true exactly when the alpha value
    of pixel (i, j) is positive.  This holds of every call of the model a
    request makes, and a request that runs to its end does make the call:
    it has applied the remover to the RGB version and called the model, with
    seed 42, on this mask.  In the handler the input image is the one
    decoded from the job. *)
Theorem mask_is_alpha_positive (img : Image) w w' :
  w' = snd (process env (Some img) w)
  \/ (exists job job_input,
        job !! "input" = Some job_input
        /\ decode_image env job_input = Ok img
        /\ w' = snd (handler env job w)) ->
  exists evs,
    trace w' = (trace w ++ evs)%list
    /\ (forall m image mask seed r,
         In (EvCall m image mask seed r) evs ->
         exists rgb removed alpha,
           rgb_version env img rgb
           /\ In (EvRembg rgb (Ok removed)) evs
           /\ py_last (Image_split removed) = Ok alpha
           /\ mask = np_gt0 (np_array alpha)
           /\ arr_dtype mask = np_bool
           /\ forall md width height planes a,
                removed = mkImage md (width, height) (planes ++ [a]) ->
                shape mask = [height; width]
                /\ forall i j, i < height -> j < width ->
                     nth (i * width + j) (data mask) 0%Z
                     = Z.b2z (0 <? nth (i * width + j) a 0)%Z)
    /\ (completed env img w w' ->
        exists m rgb removed alpha output,
          rgb_version env img rgb
          /\ In (EvRembg rgb (Ok removed)) evs
          /\ py_last (Image_split removed) = Ok alpha
          /\ In (EvCall m (astype_uint8 (np_array rgb))
                   (np_gt0 (np_array alpha)) 42 (Ok output)) evs).
Proof.
  intros Hw. pose proof (request_events img w w' Hw) as Hev.
  destruct Hev as (evs & Htr & _ & _ & Hcall). exists evs.
  split; [exact Htr|]. split.
  - intros m image mask seed r Hev.
    destruct (Hcall m image mask seed r Hev)
      as (_ & img0 & rgb & removed & alpha
          & Himg & Hrgb & Hrem & Hlast & _ & ->).
    simplify_eq. exists rgb, removed, alpha. repeat split; try assumption.
    all: intros; subst removed.
    all: now destruct (alpha_mask _ _ _ _ _ _ Hlast) as (? & ? & ?); auto.
  - intros Hc.
    destruct (completed_steps img w w' evs Hc Htr)
      as (m & rgb & removed & alpha & output & before & after
          & Hrgb & Hlast & -> & _).
    exists m, rgb, removed, alpha, output.
    split; [exact Hrgb|]. split; [|split; [exact Hlast|]].
    + apply in_or_app. right. now left.
    + apply in_or_app. right. right. right. now left.
Qed.

(** C6. Each entry point calls the inference object at most once per
    request, whatever happens (no retry, no second call), and exactly once
    on every request it completes: with the image array, the mask array and
    seed 42; the ["gs"] entry of what the call returned is then serialized
    by exactly one [save_ply]. *)
Theorem one_inference_call_per_request (job : gmap string pyval)
    (img : Image) w r1 w1 r2 w2 :
  process env (Some img) w = (r1, w1) ->
  handler env job w = (r2, w2) ->
  (exists evs,
     trace w1 = (trace w ++ evs)%list
     /\ count_ev is_call evs <= 1
     /\ (forall p, r1 = Ok p -> one_call_one_save evs))
  /\ (exists evs,
        trace w2 = (trace w ++ evs)%list
        /\ count_ev is_call evs <= 1
        /\ (forall out, r2 = Ok out -> out !! "error" = None ->
              one_call_one_save evs)).
Proof.
  intros Hrun1 Hrun2. split.
  - pose proof (process_events img w r1 w1 Hrun1) as (evs & Htr & Hcount & _).
    exists evs. split; [exact Htr|]. split; [exact Hcount|].
    intros p ->. rewrite process_unfold in Hrun1.
    destruct (process_try env img w) as [[p0|e] wp] eqn:Ht; simplify_eq.
    apply process_try_Ok in Ht as (run_id & content & evs' & Hproc & _).
    apply processed_facts in Hproc
      as (Htr' & _ & Hc & Hs & _ & _
          & m & rgb & alpha & output & g & H1 & H2 & H3).
    rewrite Htr' in Htr. apply app_inv_head in Htr. subst evs'.
    split; [exact Hc|]. split; [exact Hs|]. eauto 10.
  - destruct (job !! "input") as [job_input|] eqn:Hin.
    + pose proof (handler_events job job_input w r2 w2 Hin Hrun2)
        as (evs & Htr & Hcount & _).
      exists evs. split; [exact Htr|]. split; [exact Hcount|].
      intros out -> Hne.
      apply handler_Ok in Hrun2
        as (ji & img0 & run_id & content & evs' & wp & _ & _ & Hproc & _ & ->);
        [|exact Hne].
      apply processed_facts in Hproc
        as (Htr' & _ & Hc & Hs & _ & _
          & m & rgb & alpha & output & g & H1 & H2 & H3).
      cbn [trace after_cleanup] in Htr. rewrite Htr', <- app_assoc in Htr.
      apply app_inv_head in Htr. subst evs.
      unfold one_call_one_save. rewrite !count_ev_app, Hc, Hs. cbn.
      split; [reflexivity|]. split; [reflexivity|].
      exists m, (astype_uint8 (np_array rgb)), (np_gt0 (np_array alpha)),
        output, g, (ply_path env run_id), content.
      repeat split;
        [apply in_or_app; now left|exact H2|apply in_or_app; now left].
    + rewrite handler_no_input in Hrun2 by exact Hin. simplify_eq.
      exists []. rewrite app_nil_r.
      split; [reflexivity|]. split; [cbn; lia|discriminate].
Qed.

(** C9. A job the handler completes leaves no output file behind.  The
    handler drew one UUID [run_id] for the job, [save_ply] wrote the file
    [output_<run_id>.ply], the handler read it back and removed it before
    returning: afterwards the path holds no file and every other file is as
    before the job.  The returned ['ply'] text base64-decodes to exactly
    the bytes read from the file, and the returned ['filename'] is
    [output_<run_id>.ply]. *)
Theorem handler_leaves_no_file (job : gmap string pyval) w out w' :
  handler env job w = (Ok out, w') ->
  out !! "error" = None ->
  exists run_id content evs g,
    trace w' = (trace w ++ evs)%list
    /\ count_ev is_uuid evs = 1
    /\ In (EvUuid4 run_id) evs
    /\ In (EvSavePly g (ply_path env run_id) (Ok content)) evs
    /\ In (EvRead (ply_path env run_id) content) evs
    /\ In (EvRemove (ply_path env run_id)) evs
    /\ out = {[ "ply" := PStr (b64encode content);
                "filename" := PStr ("output_" ++ run_id ++ ".ply") ]}
    /\ b64decode (PStr (b64encode content)) = Ok content
    /\ fs w' !! ply_path env run_id = None
    /\ fs w' = delete (ply_path env run_id) (fs w).
Proof.
  intros Hrun Hne.
  apply handler_Ok in Hrun
    as (ji & img & run_id & content & evs & wp & _ & _ & Hproc & -> & ->);
    [|exact Hne].
  apply processed_facts in Hproc
    as (Htr & Hfs & _ & _ & Hu & Huuid
        & m & rgb & alpha & output & g & _ & _ & Hsave).
  exists run_id, content,
    (evs ++ [EvRead (ply_path env run_id) content;
             EvRemove (ply_path env run_id)])%list, g.
  cbn [trace fs after_cleanup]. rewrite Htr, Hfs, count_ev_app, Hu.
  split; [now rewrite app_assoc|]. split; [reflexivity|].
  split; [apply in_or_app; now left|]. split; [apply in_or_app; now left|].
  split; [apply in_or_app; right; now left|].
  split; [apply in_or_app; right; right; now left|].
  split; [reflexivity|]. split; [apply b64decode_b64encode|].
  split; [apply lookup_delete_eq|apply delete_insert_eq].
Qed.

(** C10. Whatever the mode of the input image, both entry points use it
    only through its RGB version: the image the background remover is
    applied to has mode RGB, and the array the model receives is the uint8
    array of that RGB image.  A request that runs to its end has done all of
    it, in this order: converted the image with [convert("RGB")] unless its
    mode was RGB already, applied the remover to the RGB version, and then
    called the model on the uint8 array of the RGB version.  In the handler
    the input image is the one decoded from the job. *)
Theorem image_is_rgb_before_use (img : Image) w w' :
  w' = snd (process env (Some img) w)
  \/ (exists job job_input,
        job !! "input" = Some job_input
        /\ decode_image env job_input = Ok img
        /\ w' = snd (handler env job w)) ->
  exists evs,
    trace w' = (trace w ++ evs)%list
    /\ (forall rgb r,
          In (EvRembg rgb r) evs ->
          rgb_version env img rgb /\ mode rgb = "RGB")
    /\ (forall m image mask seed r,
          In (EvCall m image mask seed r) evs ->
          exists rgb removed,
            rgb_version env img rgb /\ mode rgb = "RGB"
            /\ In (EvRembg rgb (Ok removed)) evs
            /\ image = astype_uint8 (np_array rgb)
            /\ arr_dtype image = np_uint8)
    /\ (completed env img w w' ->
        exists rgb removed m mask output before between after,
          rgb_version env img rgb /\ mode rgb = "RGB"
          /\ (mode img <> "RGB" -> In (EvConvert img "RGB" (Ok rgb)) before)
          /\ evs = (before
                    ++ [EvRembg rgb (Ok removed)]
                    ++ between
                    ++ [EvCall m (astype_uint8 (np_array rgb)) mask 42
                          (Ok output)]
                    ++ after)%list
          /\ arr_dtype (astype_uint8 (np_array rgb)) = np_uint8).
Proof.
  intros Hw. pose proof (request_events img w w' Hw) as Hev.
  destruct Hev as (evs & Htr & _ & Hrembg & Hcall). exists evs.
  split; [exact Htr|]. split; [|split].
  3: { intros Hc.
       destruct (completed_steps img w w' evs Hc Htr)
         as (m & rgb & removed & alpha & output & before & after
             & Hrgb & Hlast & -> & Hconv).
       exists rgb, removed, m, (np_gt0 (np_array alpha)), output, before,
         [EvPrint "Running Inference..."], after.
       split; [exact Hrgb|]. split; [now apply rgb_version_mode in Hrgb|].
       split; [exact Hconv|]. split; reflexivity. }
  - intros rgb r Hev. destruct (Hrembg rgb r Hev) as (img0 & Himg & Hrgb).
    simplify_eq. split; [exact Hrgb|]. now apply rgb_version_mode in Hrgb.
  - intros m image mask seed r Hev.
    destruct (Hcall m image mask seed r Hev)
      as (_ & img0 & rgb & removed & alpha & Himg & Hrgb & Hrem & _ & -> & _).
    simplify_eq. exists rgb, removed. repeat split; try assumption.
    now apply rgb_version_mode in Hrgb.
Qed.

(** ** Further properties of the request code *)

(** *** When [load_model] fails *)

(** X1. [load_model] can fail in three ways only, and only while the global
    is still [None]: the [Inference] class could not be imported
    ([ImportError], nothing printed, nothing touched); the configuration
    file is not at its absolute path ([FileNotFoundError] naming the path,
    the constructor is not called); or the constructor itself raised.
    In each case the global stays [None] and no file is touched. *)
Theorem load_model_failure_cases w e w1 :
  load_model env w = (Raise e, w1) ->
  model w = None /\ model w1 = None /\ fs w1 = fs w
  /\ ((Inference env = None /\ e = IMPORT_FAILED /\ w1 = w)
      \/ (exists new evs,
            Inference env = Some new
            /\ fs w !! config_path env = None
            /\ e = Exn "FileNotFoundError"
                     ("Config file not found at " ++ config_path env)
            /\ os_path_isabs (config_path env) = true
            /\ ext w1 = ext w
            /\ trace w1 = (trace w ++ evs)%list
            /\ count_ev is_construct evs = 0)
      \/ (exists new x evs,
            Inference env = Some new
            /\ is_Some (fs w !! config_path env)
            /\ new (config_path env) (ext w) = (Raise e, x)
            /\ ext w1 = x
            /\ trace w1 = (trace w ++ evs)%list
            /\ count_ev is_construct evs = 1)).
Proof.
  intros H. unfold load_model in H. cbv zeta in H.
  fold (config_path env) in H. run.
  - match goal with
    | Hn : negb (bool_decide _) = true |- _ =>
        apply negb_true_iff, bool_decide_eq_false in Hn; rename Hn into Hc
    end.
    repeat split; try assumption. right. left.
    eexists _, _. rewrite <- !app_assoc.
    repeat split; [|apply os_path_abspath_isabs].
    destruct (fs w !! config_path env); [|reflexivity].
    destruct Hc. eauto.
  - match goal with
    | Hn : negb (bool_decide _) = false |- _ =>
        apply negb_false_iff, bool_decide_eq_true in Hn; rename Hn into Hc
    end.
    repeat split; try assumption. right. right.
    eexists _, x, _. rewrite <- !app_assoc.
    repeat split; [exact Hc|assumption].
  - repeat split; try assumption. left. auto.
Qed.

(** X2. A failed load is not remembered.  After any failure of
    [load_model] the next call starts over: when the class is imported and
    the configuration file is there, it calls the constructor again, on the
    same path, and its result is the result of the call. *)
Theorem failed_load_is_retried w e w1 new r w2 :
  load_model env w = (Raise e, w1) ->
  Inference env = Some new ->
  is_Some (fs w1 !! config_path env) ->
  load_model env w1 = (r, w2) ->
  exists x evs,
    new (config_path env) (ext w1) = (r, x)
    /\ ext w2 = x
    /\ trace w2 = (trace w1 ++ evs)%list
    /\ count_ev is_construct evs = 1
    /\ In (EvInference (config_path env) r) evs
    /\ model w2 = match r with Ok m => Some m | Raise _ => None end.
Proof.
  intros Hfail Hi Hc Hl.
  apply load_model_spec in Hfail as (_ & _ & _ & _ & _ & Hm1 & _).
  unfold load_model in Hl. cbv zeta in Hl. fold (config_path env) in Hl.
  run.
  - match goal with
    | Hn : negb (bool_decide _) = true |- _ =>
        apply negb_true_iff, bool_decide_eq_false in Hn; contradiction
    end.
  - eexists x, _. rewrite <- !app_assoc.
    repeat split; try reflexivity. find_In.
  - eexists x, _. rewrite <- !app_assoc.
    repeat split; try reflexivity; try assumption. find_In.
Qed.

Lemma load_model_no_class w :
  Inference env = None -> model w = None ->
  load_model env w = (Raise IMPORT_FAILED, w).
Proof.
  intros Hi Hm. unfold load_model. unfold_prims. now rewrite Hm, Hi.
Qed.

(** X3. When the [Inference] class could not be imported, every request
    that carries an image fails with the same message and does nothing
    else: the handler returns [{"error": "Could not import SAM3D Inference
    module."}], [process] raises the Gradio error with that text, and
    neither decodes, converts, removes a background nor draws a run id
    (only the traceback is printed). *)
Theorem import_failure_fails_every_request (job : gmap string pyval)
    (job_input : pyval) (img : Image) w :
  Inference env = None ->
  model w = None ->
  job !! "input" = Some job_input ->
  py_contains "image" job_input = Ok true ->
  handler env job w
  = (Ok {[ "error" := PStr "Could not import SAM3D Inference module." ]},
     after_traceback IMPORT_FAILED w)
  /\ process env (Some img) w
     = (Raise (Exn "gradio.Error"
                 "Error processing image: Could not import SAM3D Inference module."),
        after_traceback IMPORT_FAILED w).
Proof.
  intros Hi Hm Hin Hb. pose proof (load_model_no_class w Hi Hm) as Hl. split.
  - rewrite (handler_unfold job job_input w Hin), Hb.
    unfold handler_try. unfold_prims. now rewrite Hl.
  - rewrite process_unfold. unfold process_try. unfold_prims. now rewrite Hl.
Qed.

(** *** Files *)




(** *** The job input *)

(** X6. The handler lets an exception out in two situations only, both in
    the lines before its [try]: the job has no ['input'] entry
    ([KeyError]), or the input is [null], a boolean or a number, on which
    the ['image' in job_input] test raises [TypeError].  In both the world
    is left untouched. *)
Theorem handler_raises_iff_input_unusable (job : gmap string pyval) w e w' :
  handler env job w = (Raise e, w') <->
  w' = w
  /\ ((job !! "input" = None /\ e = Exn "KeyError" "'input'")
      \/ (exists v,
            job !! "input" = Some v
            /\ is_container v = false
            /\ py_contains "image" v = Raise e
            /\ exn_class e = "TypeError")).
Proof.
  split.
  - intros Hh. destruct (job !! "input") as [v|] eqn:Hin.
    + rewrite (handler_unfold job v w Hin) in Hh.
      destruct (py_contains "image" v) as [[|]|e0] eqn:Hb.
      * destruct (handler_try env v w) as [[out|e1] w1]; discriminate.
      * discriminate.
      * simplify_eq. split; [reflexivity|]. right. exists v.
        destruct v; cbn in Hb; simplify_eq; auto.
    + rewrite handler_no_input in Hh by exact Hin. simplify_eq. auto.
  - intros [-> [[Hin ->] | (v & Hin & _ & Hb & _)]].
    + now apply handler_no_input.
    + now rewrite (handler_unfold job v w Hin), Hb.
Qed.

Lemma undecodable_load (job : gmap string pyval) (job_input : pyval)
    (e : exn) w :
  job !! "input" = Some job_input ->
  py_contains "image" job_input = Ok true ->
  decode_image env job_input = Raise e ->
  exists r w1,
    load_model env w = (r, w1)
    /\ handler env job w
       = (Ok {[ "error" :=
                  PStr (exn_str match r with Ok _ => e | Raise e' => e' end) ]},
          after_traceback match r with Ok _ => e | Raise e' => e' end w1).
Proof.
  intros Hin Hb Hd. rewrite (handler_unfold job job_input w Hin), Hb.
  rewrite (handler_try_undecoded job_input e w Hd).
  destruct (load_model env w) as [[m|e'] w1]; eexists _, w1; eauto.
Qed.

(** X7. The handler loads the model before it looks at the image.  A job
    whose input passes the ['image'] test but whose image text cannot be
    read (indexing the input with ['image'] raises, or the value is not
    base64 text) still goes through [load_model] first: the answer is the
    error object of the load when the load fails, of the decoding
    otherwise, and the world is the one [load_model] left (only the
    loader's prints and constructor call happened), plus the printed
    traceback. *)
Theorem undecodable_image_still_loads_model (job : gmap string pyval)
    (job_input : pyval) (e : exn) w :
  job !! "input" = Some job_input ->
  py_contains "image" job_input = Ok true ->
  py_getitem job_input "image" = Raise e
  \/ (exists image_b64,
        py_getitem job_input "image" = Ok image_b64
        /\ b64decode image_b64 = Raise e) ->
  exists r w1 evs,
    load_model env w = (r, w1)
    /\ trace w1 = (trace w ++ evs)%list
    /\ forallb is_load_event evs = true
    /\ let shown := match r with Ok _ => e | Raise e' => e' end in
       handler env job w
       = (Ok {[ "error" := PStr (exn_str shown) ]}, after_traceback shown w1).
Proof.
  intros Hin Hb Hraise.
  assert (Hd : decode_image env job_input = Raise e).
  { unfold decode_image.
    destruct Hraise as [-> | (image_b64 & -> & ->)]; reflexivity. }
  destruct (undecodable_load job job_input e w Hin Hb Hd)
    as (r & w1 & Hl & Hres).
  pose proof (load_model_spec w r w1 Hl) as (_ & evs & Htr & HL & _).
  exists r, w1, evs. auto.
Qed.

(** X8. An input that is a JSON array or a string never yields a PLY, even
    when it contains ["image"] and so passes the validation: indexing it
    with ['image'] raises [TypeError], and the handler always answers with
    an error object. *)
Theorem array_or_string_input_never_yields_ply (job : gmap string pyval)
    (job_input : pyval) w r w' :
  job !! "input" = Some job_input ->
  (exists l, job_input = PList l) \/ (exists s, job_input = PStr s) ->
  handler env job w = (r, w') ->
  (exists e, decode_image env job_input = Raise e /\ exn_class e = "TypeError")
  /\ exists msg,
       r = Ok ({[ "error" := PStr msg ]} : gmap string pyval)
       /\ fs w' = fs w.
Proof.
  intros Hin Hkind Hh.
  assert (Hd : exists e, decode_image env job_input = Raise e
                         /\ exn_class e = "TypeError")
    by (destruct Hkind as [[l ->] | [s ->]]; cbn; eauto).
  split; [exact Hd|]. destruct Hd as (e & Hd & _).
  assert (Hb : exists b, py_contains "image" job_input = Ok b)
    by (destruct Hkind as [[l ->] | [s ->]]; cbn; eauto).
  destruct Hb as [[|] Hb].
  - destruct (undecodable_load job job_input e w Hin Hb Hd)
      as (r0 & w1 & Hl & Hres).
    rewrite Hres in Hh. simplify_eq. eexists. split; [reflexivity|].
    cbn. now apply load_model_spec in Hl as (Hfs & _).
  - rewrite (handler_unfold job job_input w Hin), Hb in Hh. simplify_eq.
    now eexists.
Qed.

(** *** The order of effects *)

Lemma effects_justified_post (mb ma : option Model) evs post :
  forallb is_quiet post = true ->
  effects_justified env mb ma evs -> effects_justified env mb ma (evs ++ post).
Proof.
  intros Hq (Hcall & Hsave & Hread & Hrem).
  assert (Hin : forall ev,
             is_quiet ev = false -> In ev (evs ++ post) -> In ev evs).
  { intros ev Hev [Hin|Hin]%in_app_or; [exact Hin|].
    rewrite (forallb_In _ _ _ Hq Hin) in Hev. discriminate. }
  split; [|split; [|split]].
  - intros m image mask seed r Hev. apply Hin in Hev; [|reflexivity].
    now apply (Hcall m image mask seed r).
  - intros g path r Hev. apply Hin in Hev; [|reflexivity].
    destruct (Hsave g path r Hev)
      as (m & image & mask & output & run_id & H1 & H2 & H3 & H4).
    exists m, image, mask, output, run_id.
    repeat split; try assumption; apply in_or_app; now left.
  - intros path content Hev. apply Hin in Hev; [|reflexivity].
    destruct (Hread path content Hev) as (g & Hg). exists g.
    apply in_or_app; now left.
  - intros path Hev. apply Hin in Hev; [|reflexivity].
    destruct (Hrem path Hev) as (c & Hc). exists c. apply in_or_app; now left.
Qed.

Lemma effects_justified_cleanup (mb ma : option Model) evs g path content :
  In (EvSavePly g path (Ok content)) evs ->
  effects_justified env mb ma evs ->
  effects_justified env mb ma (evs ++ [EvRead path content; EvRemove path]).
Proof.
  intros Hsaved (Hcall & Hsave & Hread & Hrem).
  split; [|split; [|split]].
  - intros m image mask seed r Hev.
    apply in_app_or in Hev as [Hev|Hev]; [|inv_In Hev].
    now apply (Hcall m image mask seed r).
  - intros g0 path0 r Hev.
    apply in_app_or in Hev as [Hev|Hev]; [|inv_In Hev].
    destruct (Hsave g0 path0 r Hev)
      as (m & image & mask & output & run_id & H1 & H2 & H3 & H4).
    exists m, image, mask, output, run_id.
    repeat split; try assumption; apply in_or_app; now left.
  - intros path0 content0 Hev. apply in_app_or in Hev as [Hev|Hev].
    + destruct (Hread path0 content0 Hev) as (g0 & Hg). exists g0.
      apply in_or_app; now left.
    + inv_In Hev. exists g. apply in_or_app; now left.
  - intros path0 Hev. apply in_app_or in Hev as [Hev|Hev].
    + destruct (Hrem path0 Hev) as (c & Hc). exists c.
      apply in_or_app; now left.
    + inv_In Hev. exists content. apply in_or_app. right. now left.
Qed.

Lemma effects_justified_pre (mb ma : option Model) pre evs :
  forallb is_load_event pre = true ->
  effects_justified env mb ma evs -> effects_justified env mb ma (pre ++ evs).
Proof.
  intros Hq (Hcall & Hsave & Hread & Hrem).
  assert (Hin : forall ev,
             is_load_event ev = false -> In ev (pre ++ evs) -> In ev evs).
  { intros ev Hev [Hin|Hin]%in_app_or; [|exact Hin].
    rewrite (forallb_In _ _ _ Hq Hin) in Hev. discriminate. }
  split; [|split; [|split]].
  - intros m image mask seed r Hev. apply Hin in Hev; [|reflexivity].
    now apply (Hcall m image mask seed r).
  - intros g path r Hev. apply Hin in Hev; [|reflexivity].
    destruct (Hsave g path r Hev)
      as (m & image & mask & output & run_id & H1 & H2 & H3 & H4).
    exists m, image, mask, output, run_id.
    repeat split; try assumption; apply in_or_app; now right.
  - intros path content Hev. apply Hin in Hev; [|reflexivity].
    destruct (Hread path content Hev) as (g & Hg). exists g.
    apply in_or_app; now right.
  - intros path Hev. apply Hin in Hev; [|reflexivity].
    destruct (Hrem path Hev) as (c & Hc). exists c. apply in_or_app; now right.
Qed.

Lemma effects_justified_load (mb ma : option Model) evs :
  forallb is_load_event evs = true -> effects_justified env mb ma evs.
Proof.
  intros Hq. split; [|split; [|split]]; intros.
  all: match goal with
       | Hin : In _ _ |- _ =>
           apply (forallb_In _ _ _ Hq) in Hin; discriminate
       end.
Qed.

Lemma load_model_facts w r wl :
  load_model env w = (r, wl) ->
  exists evsL,
    trace wl = (trace w ++ evsL)%list
    /\ forallb is_load_event evsL = true
    /\ count_ev is_construct evsL <= 1
    /\ (is_Some (model w) -> count_ev is_construct evsL = 0)
    /\ match r with
       | Ok a => model wl = Some a /\ forall m0, model w = Some m0 -> a = m0
       | Raise _ => model wl = None
       end.
Proof.
  intros Hl.
  pose proof (load_model_spec w r wl Hl) as (_ & evsL & Htr & HL & Hc & Hr).
  exists evsL. repeat split; try assumption.
  - intros [m0 Hm0]. rewrite (load_model_loaded w m0 Hm0) in Hl.
    assert (wl = w) as -> by congruence.
    rewrite <- (app_nil_r (trace w)) in Htr at 1.
    apply app_inv_head in Htr. now subst evsL.
  - destruct r as [a|e]; [|tauto]. split; [tauto|].
    intros m0 Hm0. rewrite (load_model_loaded w m0 Hm0) in Hl. congruence.
Qed.

Ltac solve_effects :=
  split; [|split; [|split]];
  [ intros ? ? ? ? ? Hin; inv_In Hin; (split; assumption)
  | intros ? ? ? Hin; inv_In Hin;
    (do 5 eexists; split; [find_In|]; split; [eassumption|];
     split; [find_In|reflexivity])
  | intros ? ? Hin; inv_In Hin
  | intros ? Hin; inv_In Hin ].

Lemma process_try_effects (img : Image) w r w1 :
  process_try env img w = (r, w1) ->
  exists evs,
    trace w1 = (trace w ++ evs)%list
    /\ effects_justified env (model w) (model w1) evs
    /\ count_ev is_construct evs <= 1
    /\ (is_Some (model w) -> count_ev is_construct evs = 0).
Proof.
  intros H. unfold process_try in H. run.
  all: match goal with
       | Hl : load_model env _ = _ |- _ =>
           apply load_model_facts in Hl
             as (evsL & -> & HL & Hc1 & Hc0 & Hm)
       end.
  all: rewrite <- ?app_assoc; cbn [app model].
  all: try match type of Hm with _ /\ _ => destruct Hm as [Hm Hm0] end.
  all: eexists; (split; [reflexivity|]).
  all: rewrite ?count_ev_app.
  all: try (split; [apply effects_justified_pre; [exact HL|solve_effects]|];
            split; [cbn; lia|]; intros Hs; rewrite (Hc0 Hs); reflexivity).
  split; [now apply effects_justified_load|]. now split.
Qed.

Lemma process_effects (input_image : option Image) w r w' :
  process env input_image w = (r, w') ->
  exists evs,
    trace w' = (trace w ++ evs)%list
    /\ effects_justified env (model w) (model w') evs
    /\ count_ev is_construct evs <= 1
    /\ (is_Some (model w) -> count_ev is_construct evs = 0).
Proof.
  intros Hp. destruct input_image as [img|].
  - rewrite process_unfold in Hp.
    destruct (process_try env img w) as [[p|e] w1] eqn:Ht;
      apply process_try_effects in Ht as (evs & Htr & He & Hc & Hc0);
      simplify_eq.
    + now exists evs.
    + exists (evs ++ [EvTraceback e])%list. cbn [after_traceback trace model].
      rewrite Htr, <- app_assoc, count_ev_app. cbn [count_ev filter length].
      split; [reflexivity|].
      split; [now apply effects_justified_post|].
      split; [cbn; lia|]. intros Hs. rewrite (Hc0 Hs). reflexivity.
  - unfold process in Hp. unfold_prims. simplify_eq.
    exists []. rewrite app_nil_r. split; [reflexivity|].
    split; [now apply effects_justified_load|]. cbn. split; [lia|reflexivity].
Qed.

Lemma handler_effects (job : gmap string pyval) w r w' :
  handler env job w = (r, w') ->
  exists evs,
    trace w' = (trace w ++ evs)%list
    /\ effects_justified env (model w) (model w') evs
    /\ count_ev is_construct evs <= 1
    /\ (is_Some (model w) -> count_ev is_construct evs = 0).
Proof.
  intros Hh.
  assert (Hnil : w' = w ->
            exists evs,
              trace w' = (trace w ++ evs)%list
              /\ effects_justified env (model w) (model w') evs
              /\ count_ev is_construct evs <= 1
              /\ (is_Some (model w) -> count_ev is_construct evs = 0)).
  { intros ->. exists []. rewrite app_nil_r. split; [reflexivity|].
    split; [now apply effects_justified_load|]. cbn. split; [lia|reflexivity]. }
  destruct (job !! "input") as [job_input|] eqn:Hin;
    [|rewrite (handler_no_input job w Hin) in Hh; apply Hnil; congruence].
  rewrite (handler_unfold job job_input w Hin) in Hh.
  destruct (py_contains "image" job_input) as [[|]|e0];
    [|apply Hnil; congruence|apply Hnil; congruence].
  destruct (decode_image env job_input) as [img|e] eqn:Hd.
  - pose proof (handler_try_process_try job_input img w Hd) as Hs.
    destruct (process_try env img w) as [[p|e] w1] eqn:Ht;
      pose proof (process_try_effects _ _ _ _ Ht)
        as (evs & Htr & He & Hc & Hc0).
    + destruct Hs as (run_id & content & evs' & Hpr & _ & Hs).
      rewrite Hs in Hh. simplify_eq.
      apply processed_facts in Hpr
        as (Htr' & _ & _ & _ & _ & _ & m & rgb & alpha & output & g
            & _ & _ & Hsave).
      assert (evs' = evs) as ->
        by (rewrite Htr in Htr'; now apply app_inv_head in Htr').
      exists (evs ++ [EvRead (ply_path env run_id) content;
                      EvRemove (ply_path env run_id)])%list.
      cbn [after_cleanup trace model].
      rewrite Htr, <- app_assoc, count_ev_app.
      split; [reflexivity|].
      split; [now apply (effects_justified_cleanup _ _ _ g)|].
      split; [cbn; lia|]. intros Hm. rewrite (Hc0 Hm). reflexivity.
    + rewrite Hs in Hh. simplify_eq.
      exists (evs ++ [EvTraceback e])%list. cbn [after_traceback trace model].
      rewrite Htr, <- app_assoc, count_ev_app.
      split; [reflexivity|].
      split; [now apply effects_justified_post|].
      split; [cbn; lia|]. intros Hm. rewrite (Hc0 Hm). reflexivity.
  - rewrite (handler_try_undecoded job_input e w Hd) in Hh.
    destruct (load_model env w) as [rl wl] eqn:Hl.
    apply load_model_facts in Hl as (evsL & Htr & HL & Hc & Hc0 & Hm).
    assert (Hq : effects_justified env (model w) (model wl)
                   (evsL ++ [EvTraceback
                               match rl with Ok _ => e | Raise e' => e' end])).
    { apply effects_justified_post; [reflexivity|].
      now apply effects_justified_load. }
    destruct rl as [a|e']; simplify_eq; cbn [after_traceback trace model].
    all: eexists; rewrite Htr, <- app_assoc.
    all: (split; [reflexivity|]); (split; [exact Hq|]).
    all: rewrite count_ev_app.
    all: split; [cbn; lia|]; intros Hs; rewrite (Hc0 Hs); reflexivity.
Qed.


Lemma request_effects w w' :
  request_step env w w' ->
  exists evs,
    trace w' = (trace w ++ evs)%list
    /\ effects_justified env (model w) (model w') evs
    /\ count_ev is_construct evs <= 1
    /\ (is_Some (model w) -> count_ev is_construct evs = 0).
Proof.
  intros [(input_image & r & H)|(job & r & H)].
  - now apply process_effects in H.
  - now apply handler_effects in H.
Qed.

(** X9. Whatever the request and its outcome, either entry point constructs
    the [Inference] object at most once and not at all when the global
    [model] is already set, and the only object it ever calls is the one
    held in the global [model]: the one that was there before the request if
    there was one, and the one that is there after it. *)
Theorem request_calls_only_the_global_model w w' :
  request_step env w w' ->
  exists evs,
    trace w' = (trace w ++ evs)%list
    /\ count_ev is_construct evs <= 1
    /\ (is_Some (model w) -> count_ev is_construct evs = 0)
    /\ forall m image mask seed r,
         In (EvCall m image mask seed r) evs ->
         model w' = Some m /\ (forall m0, model w = Some m0 -> m = m0).
Proof.
  intros H.
  apply request_effects in H as (evs & Htr & (Hcall & _) & Hc & Hc0).
  exists evs. split; [exact Htr|]. split; [exact Hc|]. split; [exact Hc0|].
  exact Hcall.
Qed.

(** X10. Whatever the request and its outcome, the files an entry point
    touches are its own: [save_ply] is only ever called on the [gs] entry of
    an output the model returned in this request and at the absolute path of
    [output_<run_id>.ply] for a run id drawn in this request; a file is read
    only if this request saved it, with the bytes it saved; and a file is
    removed only if this request read it. *)
Theorem request_touches_only_its_own_file w w' :
  request_step env w w' ->
  exists evs,
    trace w' = (trace w ++ evs)%list
    /\ (forall g path r,
          In (EvSavePly g path r) evs ->
          exists m image mask output run_id,
            In (EvCall m image mask 42 (Ok output)) evs
            /\ output_gs output = Ok g
            /\ In (EvUuid4 run_id) evs
            /\ path = ply_path env run_id)
    /\ (forall path content,
          In (EvRead path content) evs ->
          exists g, In (EvSavePly g path (Ok content)) evs)
    /\ (forall path,
          In (EvRemove path) evs -> exists content, In (EvRead path content) evs).
Proof.
  intros H.
  apply request_effects in H as (evs & Htr & (_ & Hsave & Hread & Hrem) & _).
  now exists evs.
Qed.

(** *** Characters outside the base64 alphabet *)

Lemma is_alpha_ascii (c : ascii) :
  is_alpha c = true -> (N_of_ascii c <? 128)%N = true.
Proof.
  destruct c as [[] [] [] [] [] [] [] []]; vm_compute; congruence.
Qed.

Lemma is_ascii_significant (s : string) : is_ascii_str (significant s) = true.
Proof.
  induction s as [|c s IH]; [reflexivity|]. cbn [significant].
  destruct (Ascii.eqb c BASE64_PAD) eqn:Hp; cbn [orb].
  - apply Ascii.eqb_eq in Hp as ->. cbn [is_ascii_str]. now rewrite IH.
  - destruct (is_alpha c) eqn:Ha; [|exact IH].
    cbn [is_ascii_str]. now rewrite (is_alpha_ascii c Ha), IH.
Qed.

Lemma a2b_loop_significant (s : string) (quad_pos : nat) (leftchar : N)
    (pads : nat) (out : list byte) :
  a2b_loop (significant s) quad_pos leftchar pads out
  = a2b_loop s quad_pos leftchar pads out.
Proof.
  revert quad_pos leftchar pads out.
  induction s as [|c s IH]; intros quad_pos leftchar pads out; [reflexivity|].
  cbn [significant a2b_loop]. unfold is_alpha.
  destruct (Ascii.eqb c BASE64_PAD) eqn:Hp; cbn [orb].
  - cbn [a2b_loop]. rewrite Hp. now rewrite !IH.
  - destruct (table_a2b_base64 c) as [this_ch|] eqn:Ht; [|apply IH].
    cbn [a2b_loop]. rewrite Hp, Ht. now rewrite !IH.
Qed.

Lemma b64decode_significant (s : string) :
  is_ascii_str s = true ->
  b64decode (PStr (significant s)) = b64decode (PStr s).
Proof.
  intros Hs. cbn [b64decode]. unfold b64decode_str, a2b_base64.
  now rewrite Hs, is_ascii_significant, a2b_loop_significant.
Qed.

Lemma handler_try_same_image (job_input1 job_input2 v1 v2 : pyval) w :
  py_getitem job_input1 "image" = Ok v1 ->
  py_getitem job_input2 "image" = Ok v2 ->
  b64decode v1 = b64decode v2 ->
  handler_try env job_input1 w = handler_try env job_input2 w.
Proof.
  intros H1 H2 Hb. unfold handler_try.
  unfold mbind, M_bind, bind, lift.
  destruct (load_model env w) as [[m|e] wl]; [|reflexivity].
  now rewrite H1, H2, Hb.
Qed.

(** X11. The handler reads the image as [base64.b64decode] does by default,
    without validation: characters of an ASCII payload that are neither in
    the base64 alphabet nor [=] (line breaks, blanks) are skipped, so a job
    answers the same, and leaves the same world, with or without them. *)
Theorem handler_ignores_characters_outside_base64
    (job job_input : gmap string pyval) (s : string) w :
  is_ascii_str s = true ->
  handler env (<["input" := PDict (<["image" := PStr s]> job_input)]> job) w
  = handler env
      (<["input" := PDict (<["image" := PStr (significant s)]> job_input)]>
         job) w.
Proof.
  intros Hs.
  rewrite (handler_unfold _ (PDict (<["image" := PStr s]> job_input)))
    by apply lookup_insert_eq.
  rewrite (handler_unfold _
             (PDict (<["image" := PStr (significant s)]> job_input)))
    by apply lookup_insert_eq.
  cbn [py_contains]. rewrite !lookup_insert_eq.
  rewrite !bool_decide_eq_true_2 by eauto.
  rewrite (handler_try_same_image
             (PDict (<["image" := PStr s]> job_input))
             (PDict (<["image" := PStr (significant s)]> job_input))
             (PStr s) (PStr (significant s))); [reflexivity| | |].
  - cbn [py_getitem]. now rewrite lookup_insert_eq.
  - cbn [py_getitem]. now rewrite lookup_insert_eq.
  - symmetry. now apply b64decode_significant.
Qed.

(** *** The model over a sequence of requests *)

Lemma built_once_post (mb ma : option Model) evs post :
  count_ev is_built post = 0 ->
  built_once mb ma evs -> built_once mb ma (evs ++ post).
Proof.
  intros Hq [Hk Hc]. split; [exact Hk|].
  rewrite count_ev_app, Hq, Hc. lia.
Qed.

Lemma load_model_built w r wl :
  load_model env w = (r, wl) ->
  exists evsL,
    trace wl = (trace w ++ evsL)%list
    /\ built_once (model w) (model wl) evsL.
Proof.
  intros H. unfold load_model in H. run.
  all: eexists; rewrite <- ?app_assoc; cbn [app].
  all: try (split; [symmetry; apply app_nil_r|]).
  all: try (split; [reflexivity|]).
  all: split; [try congruence|].
  all: cbn [model]; try match goal with
                        | Hm : model _ = _ |- _ => rewrite Hm
                        end; reflexivity.
Qed.

Lemma process_try_built (img : Image) w r w1 :
  process_try env img w = (r, w1) ->
  exists evs,
    trace w1 = (trace w ++ evs)%list /\ built_once (model w) (model w1) evs.
Proof.
  intros H. unfold process_try in H. run.
  all: match goal with
       | Hl : load_model env _ = _ |- _ =>
           apply load_model_built in Hl as (evsL & -> & Hb)
       end.
  all: rewrite <- ?app_assoc; cbn [app model].
  all: eexists; (split; [reflexivity|]).
  all: first [ exact Hb | apply built_once_post; [reflexivity|exact Hb] ].
Qed.

Lemma request_built w w' :
  request_step env w w' ->
  exists evs,
    trace w' = (trace w ++ evs)%list /\ built_once (model w) (model w') evs.
Proof.
  assert (Hnil : forall w, exists evs,
             trace w = (trace w ++ evs)%list
             /\ built_once (model w) (model w) evs).
  { intros w0. exists []. rewrite app_nil_r. split; [reflexivity|].
    split; [auto|]. cbn. now destruct (model w0). }
  assert (Hpost : forall w0 w1 (evs : list (Event Model GS)) ev,
             is_built ev = false ->
             trace w1 = (trace w0 ++ evs)%list ->
             built_once (model w0) (model w1) evs ->
             exists evs',
               (trace w1 ++ [ev] = trace w0 ++ evs')%list
               /\ built_once (model w0) (model w1) evs').
  { intros w0 w1 evs ev Hev Htr Hb. exists (evs ++ [ev])%list.
    rewrite Htr, <- app_assoc. split; [reflexivity|].
    apply built_once_post; [|exact Hb]. unfold count_ev. cbn. now rewrite Hev. }
  intros [(input_image & r & H)|(job & r & H)].
  - destruct input_image as [img|].
    + rewrite process_unfold in H.
      destruct (process_try env img w) as [[p|e] w1] eqn:Ht;
        apply process_try_built in Ht as (evs & Htr & Hb); simplify_eq.
      * now exists evs.
      * cbn [after_traceback trace model]. now apply (Hpost w w1 evs).
    + unfold process in H. unfold_prims. simplify_eq. apply Hnil.
  - destruct (job !! "input") as [job_input|] eqn:Hin;
      [|rewrite (handler_no_input job w Hin) in H; simplify_eq; apply Hnil].
    rewrite (handler_unfold job job_input w Hin) in H.
    destruct (py_contains "image" job_input) as [[|]|e0];
      [|simplify_eq; apply Hnil|simplify_eq; apply Hnil].
    destruct (decode_image env job_input) as [img|e] eqn:Hd.
    + pose proof (handler_try_process_try job_input img w Hd) as Hs.
      destruct (process_try env img w) as [[p|e] w1] eqn:Ht;
        apply process_try_built in Ht as (evs & Htr & Hb).
      * destruct Hs as (run_id & content & evs' & _ & _ & Hs).
        rewrite Hs in H. simplify_eq. cbn [after_cleanup trace model].
        exists (evs ++ [EvRead (ply_path env run_id) content;
                        EvRemove (ply_path env run_id)])%list.
        rewrite Htr, <- app_assoc. split; [reflexivity|].
        now apply built_once_post.
      * rewrite Hs in H. simplify_eq. cbn [after_traceback trace model].
        now apply (Hpost w w1 evs).
    + rewrite (handler_try_undecoded job_input e w Hd) in H.
      destruct (load_model env w) as [[a|e'] wl] eqn:Hl;
        apply load_model_built in Hl as (evsL & Htr & Hb); simplify_eq;
        cbn [after_traceback trace model]; now apply (Hpost w wl evsL).
Qed.

Lemma built_once_rtc (R : relation (World X Model GS)) :
  (forall w w', R w w' -> request_step env w w') ->
  forall w w',
    rtc R w w' ->
    exists evs,
      trace w' = (trace w ++ evs)%list /\ built_once (model w) (model w') evs.
Proof.
  intros HR w w'.
  induction 1 as [w|w w1 w2 Hstep _ (evs2 & Htr2 & Hk2 & Hc2)].
  - exists []. rewrite app_nil_r. split; [reflexivity|].
    split; [auto|]. cbn. now destruct (model w).
  - apply HR, request_built in Hstep as (evs1 & Htr1 & Hk1 & Hc1).
    exists (evs1 ++ evs2)%list. rewrite Htr2, Htr1, <- app_assoc.
    split; [reflexivity|]. split; [auto|].
    rewrite count_ev_app, Hc1, Hc2.
    destruct (model w) as [m|] eqn:Hm.
    + rewrite (Hk1 m eq_refl). reflexivity.
    + destruct (model w1) as [m1|] eqn:Hm1.
      * now rewrite (Hk2 m1 eq_refl).
      * now destruct (model w2).
Qed.

(** X12. Over any sequence of requests to one entry point (the calls of
    [process] in the web demo, or the calls of [handler] in the serverless
    worker) the global [model] of that program is set at most once and
    never reset: a model that is loaded stays the same object, and the
    [Inference] constructor returns an object exactly once if the sequence
    takes [model] from [None] to an object, and never otherwise. *)
Theorem model_is_built_once_for_all_requests w w' :
  rtc (process_step env) w w' \/ rtc (handler_step env) w w' ->
  exists evs,
    trace w' = (trace w ++ evs)%list
    /\ (forall m, model w = Some m -> model w' = Some m)
    /\ count_ev is_built evs
       = match model w, model w' with
         | None, Some _ => 1
         | _, _ => 0
         end.
Proof.
  intros [H|H].
  - apply (built_once_rtc (process_step env)) in H; [exact H|].
    intros w0 w1 Hs. now left.
  - apply (built_once_rtc (handler_step env)) in H; [exact H|].
    intros w0 w1 Hs. now right.
Qed.
End ProgramFacts.

(** ** The module body *)

Section StartupFacts.

Import Startup.

Context {H X Model GS : Type} (host : Host H X Model)
  (env : Env X Model GS).

Implicit Types (b : Boot H X Model) (evs : list (BootEvent X Model)).

#[local] Arguments os_path_join : simpl never.
#[local] Arguments os_path_abspath : simpl never.
#[local] Arguments os_getcwd : simpl never.

Ltac boot_prims :=
  unfold module_body, clone_repository, download_checkpoints,
    import_Inference_or_None in *;
  unfold from_inference_import_Inference, snapshot_download, os_makedirs,
    subprocess_run_git_clone, Startup.os_path_exists, sys_path_append,
    Startup.print in *;
  unfold Startup.try_except, Exception, Startup.external, Startup.log,
    mbind, B_bind, mret, B_ret in *.

Ltac boot := boot_prims; repeat (case_match; simplify_eq/=).

Ltac boot_events :=
  eexists; split;
  [rewrite <- ?app_assoc; cbn [app]; reflexivity|].

Ltac inv_In H :=
  cbn in H;
  repeat match type of H with
         | _ \/ _ => destruct H as [H|H]; [try discriminate; simplify_eq|]
         | False => contradiction
         end.

Ltac find_In := solve [cbn; repeat first [ left; reflexivity | right ]].

Lemma ends_with_sep_app (a : string) (c : ascii) (s : string) :
  ends_with_sep (a ++ String c s) = ends_with_sep (String c s).
Proof.
  unfold ends_with_sep. induction a as [|d a IH]; [reflexivity|].
  rewrite <- IH. change (String d a ++ String c s)%string
    with (String d (a ++ String c s)).
  cbn [list_ascii_of_string].
  destruct (list_ascii_of_string (a ++ String c s)) as [|x l] eqn:E;
    [|reflexivity].
  destruct a; discriminate E.
Qed.

Lemma string_app_assoc (a b c : string) :
  ((a ++ b) ++ c = a ++ b ++ c)%string.
Proof.
  induction a as [|d a IH]; [reflexivity|].
  change (String d (a ++ b) ++ c = String d (a ++ b ++ c))%string.
  change (String d ((a ++ b) ++ c) = String d (a ++ b ++ c))%string.
  now rewrite IH.
Qed.

(** The two directories the fallback appends are the two appended at the
    start: [os.path.join(os.getcwd(), d)] is [os.path.abspath(d)]. *)
Lemma retry_dirs :
  [os_path_join (os_getcwd env) REPO_DIR;
   os_path_join (os_path_join (os_getcwd env) REPO_DIR) "notebook"]
  = repo_dirs env.
Proof.
  assert (Hend : forall a, ends_with_sep (a ++ "sam-3d-objects") = false)
    by (intros a; now rewrite ends_with_sep_app).
  unfold repo_dirs, os_path_abspath. f_equal. f_equal.
  change (os_path_join REPO_DIR "notebook") with "sam-3d-objects/notebook".
  unfold os_path_join, REPO_DIR.
  change (os_path_isabs "notebook") with false.
  change (os_path_isabs "sam-3d-objects/notebook") with false.
  change (os_path_isabs "sam-3d-objects") with false.
  cbv iota.
  destruct (ends_with_sep (os_getcwd env)).
  - rewrite (Hend (os_getcwd env)).
    now rewrite string_app_assoc.
  - rewrite <- (string_app_assoc (os_getcwd env) "/" "sam-3d-objects").
    rewrite (Hend (os_getcwd env ++ "/")%string).
    now rewrite !string_app_assoc.
Qed.

(** X13. The module body clones the repository exactly when the path
    [sam-3d-objects] does not exist when it starts, and never otherwise.
    The clone is made with [check=True]: when it fails, the exception leaves
    the module body at once, with [sys.path] as it was, before any download
    or import is tried. *)
Theorem clone_only_when_repository_is_missing hint b r b' :
  module_body host env hint b = (r, b') ->
  exists evs,
    console b' = (console b ++ evs)%list
    /\ List.filter is_clone evs
       = (if path_exists host REPO_DIR (machine b) then []
          else [BClone REPO_URL REPO_DIR
                  (fst (git_clone host REPO_URL REPO_DIR (machine b)))])
    /\ (forall url dir e,
          In (BClone url dir (Raise e)) evs ->
          r = Raise e /\ sys_path b' = sys_path b
          /\ List.filter is_download evs = [] /\ List.filter is_import evs = []).
Proof.
  intros Hb. boot.
  all: boot_events.
  all: split; [reflexivity|].
  all: intros url dir e' Hin; inv_In Hin.
  all: repeat split; reflexivity.
Qed.

(** X14. A failed checkpoint download does not stop the start.  The module
    body raises only what the clone raised or what an import raised that is
    no [ImportError]; when [os.makedirs] or [snapshot_download] raises, the
    error and the hint are printed and the import is still tried.  The
    download itself is not conditional: whenever the directory could be made,
    [snapshot_download] is called for [facebook/sam-3d-objects] into
    [sam-3d-objects/checkpoints/hf], whether or not the files are there. *)
Theorem checkpoint_download_failure_is_not_fatal hint b r b' :
  module_body host env hint b = (r, b') ->
  exists evs,
    console b' = (console b ++ evs)%list
    /\ (forall e,
          r = Raise e ->
          In (BClone REPO_URL REPO_DIR (Raise e)) evs
          \/ exists path,
               In (BImport path (Raise e)) evs
               /\ is_ImportError host e = false)
    /\ (forall p,
          In (BMakedirs p (Ok tt)) evs ->
          exists rd,
            In (BDownload CHECKPOINT_REPO
                  (os_path_join REPO_DIR CHECKPOINT_DIR) rd) evs)
    /\ (forall ev e,
          In ev evs ->
          (exists p, ev = BMakedirs p (Raise e))
          \/ (exists repo_id p, ev = BDownload repo_id p (Raise e)) ->
          In (BPrint ("Error downloading checkpoints: " ++ exn_str e)) evs
          /\ In (BPrint hint) evs
          /\ List.filter is_import evs <> []).
Proof.
  intros Hb. boot.
  all: boot_events.
  all: split; [intros e' He'; simplify_eq;
               first [ left; find_In
                     | right; eexists; split; [find_In|assumption] ]|].
  all: split; [intros p Hin; inv_In Hin; eexists; find_In|].
  all: intros ev e' Hin [(p & ->)|(repo_id & p & ->)]; inv_In Hin.
  all: split; [find_In|]; (split; [find_In|]); discriminate.
Qed.

(** X15. The global [Inference] is [None] exactly when the import was tried
    twice and raised [ImportError] both times; it is the imported class
    exactly when the last import tried returned it.  No more than two imports
    are tried. *)
Theorem Inference_is_None_iff_both_imports_fail hint b r b' :
  module_body host env hint b = (r, b') ->
  exists evs,
    console b' = (console b ++ evs)%list
    /\ length (List.filter is_import evs) <= 2
    /\ (r = Ok None <->
        exists p1 e1 p2 e2,
          List.filter is_import evs
          = [BImport p1 (Raise e1); BImport p2 (Raise e2)]
          /\ is_ImportError host e1 = true
          /\ is_ImportError host e2 = true)
    /\ (forall Inference,
          r = Ok (Some Inference) <->
          exists p, last (List.filter is_import evs)
                    = Some (BImport p (Ok Inference))).
Proof.
  intros Hb. boot.
  all: boot_events.
  all: split; [cbn; lia|].
  all: split;
    [ split;
      [ intros Hr; simplify_eq;
        (do 4 eexists; split; [reflexivity|]; split; assumption)
      | intros (? & ? & ? & ? & Hf & ? & ?); cbn in Hf;
        simplify_eq; try reflexivity; congruence ]
    | intros c; split;
      [ intros Hr; simplify_eq; (eexists; reflexivity)
      | intros (? & Hl); cbn in Hl; simplify_eq; reflexivity ] ].
Qed.

(** X16. The retry of the import searches no new directory.  The first
    import runs with the two repository directories appended to [sys.path];
    the two entries appended before the second import are these same two
    strings again, since [os.path.join(os.getcwd(), d)] is
    [os.path.abspath(d)] for the relative [d] used here. *)
Theorem retry_import_searches_no_new_directory hint b r b' :
  module_body host env hint b = (r, b') ->
  exists evs,
    console b' = (console b ++ evs)%list
    /\ forall p1 r1 rest,
         List.filter is_import evs = BImport p1 r1 :: rest ->
         p1 = (sys_path b ++ repo_dirs env)%list
         /\ forall p2 r2,
              In (BImport p2 r2) rest ->
              exists h left h',
                import_Inference host p1 h = (r1, (left, h'))
                /\ p2 = (left ++ repo_dirs env)%list.
Proof.
  intros Hb. pose proof retry_dirs as Hd. unfold repo_dirs in *.
  injection Hd as Hd. boot.
  all: boot_events.
  all: intros ? ? ? Hf; cbn in Hf; simplify_eq.
  all: split; [reflexivity|].
  all: intros ? ? Hin; inv_In Hin.
  all: repeat match goal with
         | Hi : import_Inference _ _ _ = _ |- _ =>
             rewrite <- ?app_assoc in Hi; cbn [app] in Hi; revert Hi
         end; intros.
  all: do 3 eexists; split; [eassumption|].
  all: rewrite Hd; reflexivity.
Qed.

End StartupFacts.

(** ** The claims on the concrete environment *)

Lemma load_model_lazy_once_witness :
  load_model Demo.env Demo.w0 = (Ok Demo.config_path, Demo.w_loaded)
  /\ model Demo.w_loaded = Some Demo.config_path
  /\ (exists evs,
        trace Demo.w_loaded = (trace Demo.w0 ++ evs)%list
        /\ count_ev is_construct evs
           = match model Demo.w0 with None => 1 | Some _ => 0 end)
  /\ (forall m0, model Demo.w0 = Some m0 ->
        Demo.config_path = m0 /\ Demo.w_loaded = Demo.w0)
  /\ load_model Demo.env Demo.w_loaded = (Ok Demo.config_path, Demo.w_loaded)
  /\ (forall n,
        Nat.iter n (fun w' => snd (load_model Demo.env w')) Demo.w_loaded
        = Demo.w_loaded)
  /\ (forall input_image job,
        model (snd (process Demo.env input_image Demo.w_loaded))
        = Some Demo.config_path
        /\ model (snd (handler Demo.env job Demo.w_loaded))
           = Some Demo.config_path).
Proof.
  split; [vm_compute; reflexivity|].
  apply (load_model_lazy_once Demo.env Demo.w0 Demo.config_path Demo.w_loaded).
  vm_compute; reflexivity.
Defined.

Lemma process_returns_saved_path_witness :
  process Demo.env (Some Demo.gray) Demo.w0
  = (Ok (Some Demo.ply, Some Demo.ply), Demo.w_process)
  /\ exists run_id content,
       Some Demo.ply = Some (ply_path Demo.env run_id)
       /\ Some Demo.ply = Some (ply_path Demo.env run_id)
       /\ os_path_isabs (ply_path Demo.env run_id) = true
       /\ fs Demo.w_process !! ply_path Demo.env run_id = Some content
       /\ exists evs g,
            trace Demo.w_process = (trace Demo.w0 ++ evs)%list
            /\ In (EvUuid4 run_id) evs
            /\ In (EvSavePly g (ply_path Demo.env run_id) (Ok content)) evs.
Proof.
  split; [vm_compute; reflexivity|].
  apply (process_returns_saved_path Demo.env Demo.gray Demo.w0).
  vm_compute; reflexivity.
Defined.

Lemma handler_output_shape_witness :
  Demo.job (PDict ∅) !! "input" = Some (PDict ∅)
  /\ is_container (PDict ∅) = true
  /\ exists out w',
       handler Demo.env (Demo.job (PDict ∅)) Demo.w0 = (Ok out, w')
       /\ (is_ply_output out \/ is_error_output out)
       /\ (forall d, PDict ∅ = PDict d -> d !! "image" = None ->
             out = {[ "error" := PStr NO_IMAGE ]} /\ w' = Demo.w0).
Proof.
  split; [vm_compute; reflexivity|]. split; [reflexivity|].
  apply (handler_output_shape Demo.env (Demo.job (PDict ∅)) (PDict ∅)
           Demo.w0).
  - vm_compute; reflexivity.
  - reflexivity.
Defined.

(** C1. Every job should get an output object.  The handler misses this
    on a job whose ['input'] is the number 5: the validation line
    ['image' not in job_input] (handler.py 92) stands before the [try] and
    raises [TypeError] there, so the handler returns nothing, neither the
    PLY object nor an error object. *)
Lemma handler_raises_on_number_input :
  (exists e,
     handler Demo.env (Demo.job (PInt 5)) Demo.w0 = (Raise e, Demo.w0)
     /\ exn_class e = "TypeError")
  /\ ~ (exists out w',
          handler Demo.env (Demo.job (PInt 5)) Demo.w0 = (Ok out, w')
          /\ (is_ply_output out \/ is_error_output out)).
Proof.
  assert (H : handler Demo.env (Demo.job (PInt 5)) Demo.w0
              = (Raise (Exn "TypeError"
                          "argument of type 'int' is not iterable"),
                 Demo.w0)) by (vm_compute; reflexivity).
  split; [now eexists|].
  intros (out & w' & Hh & _). rewrite H in Hh. discriminate.
Qed.

Lemma failures_caught_at_top_level_witness :
  Demo.job (PStr "an image") !! "input" = Some (PStr "an image")
  /\ is_container (PStr "an image") = true
  /\ (exists has_image, py_contains "image" (PStr "an image") = Ok has_image)
  /\ (forall e w1,
        py_contains "image" (PStr "an image") = Ok true ->
        handler_try Demo.env (PStr "an image") Demo.w0 = (Raise e, w1) ->
        handler Demo.env (Demo.job (PStr "an image")) Demo.w0
        = (Ok {[ "error" := PStr (exn_str e) ]}, after_traceback e w1))
  /\ (exists out w',
        handler Demo.env (Demo.job (PStr "an image")) Demo.w0 = (Ok out, w'))
  /\ (forall e w1,
        process_try Demo.env Demo.gray Demo.w0 = (Raise e, w1) ->
        process Demo.env (Some Demo.gray) Demo.w0
        = (Raise (gr_Error e), after_traceback e w1))
  /\ (forall input_image e w',
        process Demo.env input_image Demo.w0 = (Raise e, w') ->
        exists e0, e = gr_Error e0).
Proof.
  split; [vm_compute; reflexivity|]. split; [reflexivity|].
  apply (failures_caught_at_top_level Demo.env (Demo.job (PStr "an image"))
           (PStr "an image") Demo.gray Demo.w0).
  - vm_compute; reflexivity.
  - reflexivity.
Defined.

(** C2. Every failure should end in a returned object with an ['error']
    field.  The handler misses this on a job whose ['input'] is the number
    0: the [TypeError] of the validation line (handler.py 92), which stands
    before the [try], is caught by nothing and leaves the handler. *)
Lemma validation_exception_propagates :
  (exists e,
     handler Demo.env (Demo.job (PInt 0)) Demo.w0 = (Raise e, Demo.w0)
     /\ exn_class e = "TypeError")
  /\ ~ (exists out w',
          handler Demo.env (Demo.job (PInt 0)) Demo.w0 = (Ok out, w')
          /\ is_Some (out !! "error")).
Proof.
  assert (H : handler Demo.env (Demo.job (PInt 0)) Demo.w0
              = (Raise (Exn "TypeError"
                          "argument of type 'int' is not iterable"),
                 Demo.w0)) by (vm_compute; reflexivity).
  split; [now eexists|].
  intros (out & w' & Hh & _). rewrite H in Hh. discriminate.
Qed.

Lemma handler_process_same_computation_witness :
  Demo.good_job !! "input" = Some (PDict {[ "image" := PStr "yA==" ]})
  /\ ({[ "image" := PStr "yA==" ]} : gmap string pyval) !! "image"
     = Some (PStr "yA==")
  /\ b64decode (PStr "yA==") = Ok Demo.image_data
  /\ PIL_open Demo.env Demo.image_data = Ok Demo.gray
  /\ match process Demo.env (Some Demo.gray) Demo.w0,
           handler Demo.env Demo.good_job Demo.w0 with
     | (Ok p, w1), (Ok out, w2) =>
         exists run_id content evs,
           processed Demo.env Demo.gray Demo.w0 run_id content evs w1
           /\ p = (Some (ply_path Demo.env run_id),
                   Some (ply_path Demo.env run_id))
           /\ fs w1 !! ply_path Demo.env run_id = Some content
           /\ out = {[ "ply" := PStr (b64encode content);
                       "filename" := PStr (ply_name run_id) ]}
           /\ w2 = after_cleanup (ply_path Demo.env run_id) content w1
     | (Raise e1, w1), (Ok out, w2) =>
         exists e,
           e1 = gr_Error e /\ out = {[ "error" := PStr (exn_str e) ]}
           /\ w2 = w1
     | _, _ => False
     end.
Proof.
  split; [vm_compute; reflexivity|]. split; [vm_compute; reflexivity|].
  split; [vm_compute; reflexivity|]. split; [reflexivity|].
  apply (handler_process_same_computation Demo.env Demo.good_job
           {[ "image" := PStr "yA==" ]} (PStr "yA==") Demo.image_data
           Demo.gray Demo.w0).
  all: vm_compute; reflexivity.
Defined.

Lemma mask_is_alpha_positive_witness :
  (Demo.w_handler = snd (process Demo.env (Some Demo.gray) Demo.w0)
   \/ exists job job_input,
        job !! "input" = Some job_input
        /\ decode_image Demo.env job_input = Ok Demo.gray
        /\ Demo.w_handler = snd (handler Demo.env job Demo.w0))
  /\ completed Demo.env Demo.gray Demo.w0 Demo.w_handler
  /\ exists evs,
       trace Demo.w_handler = (trace Demo.w0 ++ evs)%list
       /\ (forall m image mask seed r,
             In (EvCall m image mask seed r) evs ->
             exists rgb removed alpha,
               rgb_version Demo.env Demo.gray rgb
               /\ In (EvRembg rgb (Ok removed)) evs
               /\ py_last (Image_split removed) = Ok alpha
               /\ mask = np_gt0 (np_array alpha)
               /\ arr_dtype mask = np_bool
               /\ forall md width height planes a,
                    removed = mkImage md (width, height) (planes ++ [a]) ->
                    shape mask = [height; width]
                    /\ forall i j, i < height -> j < width ->
                         nth (i * width + j) (data mask) 0%Z
                         = Z.b2z (0 <? nth (i * width + j) a 0)%Z)
       /\ exists m rgb removed alpha output,
            rgb_version Demo.env Demo.gray rgb
            /\ In (EvRembg rgb (Ok removed)) evs
            /\ py_last (Image_split removed) = Ok alpha
            /\ In (EvCall m (astype_uint8 (np_array rgb))
                     (np_gt0 (np_array alpha)) 42 (Ok output)) evs.
Proof.
  assert (Hd : Demo.good_job !! "input" = Some Demo.good_input
               /\ decode_image Demo.env Demo.good_input = Ok Demo.gray)
    by (split; vm_compute; reflexivity).
  assert (H : Demo.w_handler = snd (process Demo.env (Some Demo.gray) Demo.w0)
              \/ exists job job_input,
                   job !! "input" = Some job_input
                   /\ decode_image Demo.env job_input = Ok Demo.gray
                   /\ Demo.w_handler = snd (handler Demo.env job Demo.w0)).
  { right. exists Demo.good_job, Demo.good_input.
    split; [apply Hd|]. split; [apply Hd|reflexivity]. }
  assert (Hc : completed Demo.env Demo.gray Demo.w0 Demo.w_handler).
  { right.
    exists Demo.good_job, Demo.good_input,
      {[ "ply" := PStr (b64encode Demo.ply_bytes);
         "filename" := PStr "output_run-1.ply" ]}.
    split; [apply Hd|]. split; [apply Hd|].
    split; vm_compute; reflexivity. }
  split; [exact H|]. split; [exact Hc|].
  destruct (mask_is_alpha_positive Demo.env Demo.gray Demo.w0 Demo.w_handler H)
    as (evs & Htr & Hall & Hdone).
  exists evs. split; [exact Htr|]. split; [exact Hall|exact (Hdone Hc)].
Defined.

Lemma one_inference_call_per_request_witness :
  process Demo.env (Some Demo.gray) Demo.w0
  = (Ok (Some Demo.ply, Some Demo.ply), Demo.w_process)
  /\ handler Demo.env Demo.good_job Demo.w0
     = (Ok {[ "ply" := PStr (b64encode Demo.ply_bytes);
              "filename" := PStr "output_run-1.ply" ]}, Demo.w_handler)
  /\ (exists evs,
        trace Demo.w_process = (trace Demo.w0 ++ evs)%list
        /\ count_ev is_call evs <= 1
        /\ (forall p, Ok (Some Demo.ply, Some Demo.ply) = Ok p ->
              one_call_one_save evs))
  /\ (exists evs,
        trace Demo.w_handler = (trace Demo.w0 ++ evs)%list
        /\ count_ev is_call evs <= 1
        /\ (forall out,
              Ok ({[ "ply" := PStr (b64encode Demo.ply_bytes);
                     "filename" := PStr "output_run-1.ply" ]}
                  : gmap string pyval) = Ok out ->
              out !! "error" = None -> one_call_one_save evs)).
Proof.
  split; [vm_compute; reflexivity|]. split; [vm_compute; reflexivity|].
  apply (one_inference_call_per_request Demo.env Demo.good_job Demo.gray
           Demo.w0).
  all: vm_compute; reflexivity.
Defined.

Lemma handler_leaves_no_file_witness :
  handler Demo.env Demo.good_job Demo.w0
  = (Ok {[ "ply" := PStr (b64encode Demo.ply_bytes);
           "filename" := PStr "output_run-1.ply" ]}, Demo.w_handler)
  /\ ({[ "ply" := PStr (b64encode Demo.ply_bytes);
         "filename" := PStr "output_run-1.ply" ]} : gmap string pyval)
     !! "error" = None
  /\ exists run_id content evs g,
       trace Demo.w_handler = (trace Demo.w0 ++ evs)%list
       /\ count_ev is_uuid evs = 1
       /\ In (EvUuid4 run_id) evs
       /\ In (EvSavePly g (ply_path Demo.env run_id) (Ok content)) evs
       /\ In (EvRead (ply_path Demo.env run_id) content) evs
       /\ In (EvRemove (ply_path Demo.env run_id)) evs
       /\ ({[ "ply" := PStr (b64encode Demo.ply_bytes);
              "filename" := PStr "output_run-1.ply" ]} : gmap string pyval)
          = {[ "ply" := PStr (b64encode content);
               "filename" := PStr ("output_" ++ run_id ++ ".ply") ]}
       /\ b64decode (PStr (b64encode content)) = Ok content
       /\ fs Demo.w_handler !! ply_path Demo.env run_id = None
       /\ fs Demo.w_handler = delete (ply_path Demo.env run_id) (fs Demo.w0).
Proof.
  split; [vm_compute; reflexivity|]. split; [vm_compute; reflexivity|].
  apply (handler_leaves_no_file Demo.env Demo.good_job Demo.w0).
  all: vm_compute; reflexivity.
Defined.

Lemma image_is_rgb_before_use_witness :
  (Demo.w_process = snd (process Demo.env (Some Demo.gray) Demo.w0)
   \/ exists job job_input,
        job !! "input" = Some job_input
        /\ decode_image Demo.env job_input = Ok Demo.gray
        /\ Demo.w_process = snd (handler Demo.env job Demo.w0))
  /\ completed Demo.env Demo.gray Demo.w0 Demo.w_process
  /\ mode Demo.gray <> "RGB"
  /\ exists evs,
       trace Demo.w_process = (trace Demo.w0 ++ evs)%list
       /\ (forall rgb r,
             In (EvRembg rgb r) evs ->
             rgb_version Demo.env Demo.gray rgb /\ mode rgb = "RGB")
       /\ (forall m image mask seed r,
             In (EvCall m image mask seed r) evs ->
             exists rgb removed,
               rgb_version Demo.env Demo.gray rgb /\ mode rgb = "RGB"
               /\ In (EvRembg rgb (Ok removed)) evs
               /\ image = astype_uint8 (np_array rgb)
               /\ arr_dtype image = np_uint8)
       /\ exists rgb removed m mask output before between after,
            rgb_version Demo.env Demo.gray rgb /\ mode rgb = "RGB"
            /\ In (EvConvert Demo.gray "RGB" (Ok rgb)) before
            /\ evs = (before
                      ++ [EvRembg rgb (Ok removed)]
                      ++ between
                      ++ [EvCall m (astype_uint8 (np_array rgb)) mask 42
                            (Ok output)]
                      ++ after)%list
            /\ arr_dtype (astype_uint8 (np_array rgb)) = np_uint8.
Proof.
  assert (H : Demo.w_process = snd (process Demo.env (Some Demo.gray) Demo.w0)
              \/ exists job job_input,
                   job !! "input" = Some job_input
                   /\ decode_image Demo.env job_input = Ok Demo.gray
                   /\ Demo.w_process = snd (handler Demo.env job Demo.w0))
    by (left; reflexivity).
  assert (Hc : completed Demo.env Demo.gray Demo.w0 Demo.w_process).
  { left. exists (Some Demo.ply, Some Demo.ply). vm_compute; reflexivity. }
  assert (Hm : mode Demo.gray <> "RGB") by discriminate.
  split; [exact H|]. split; [exact Hc|]. split; [exact Hm|].
  destruct (image_is_rgb_before_use Demo.env Demo.gray Demo.w0 Demo.w_process
              H)
    as (evs & Htr & Hrem & Hcall & Hdone).
  exists evs. split; [exact Htr|]. split; [exact Hrem|]. split; [exact Hcall|].
  destruct (Hdone Hc)
    as (rgb & removed & m & mask & output & before & between & after
        & Hrgb & Hmode & Hconv & Hevs & Hdt).
  exists rgb, removed, m, mask, output, before, between, after.
  split; [exact Hrgb|]. split; [exact Hmode|]. split; [exact (Hconv Hm)|].
  split; [exact Hevs|exact Hdt].
Defined.

(** ** The further properties on concrete cases *)

Lemma load_model_failure_cases_witness :
  load_model Demo.env Cases.w_bare = (Raise Cases.NOT_FOUND, Cases.w_not_found)
  /\ model Cases.w_bare = None
  /\ model Cases.w_not_found = None
  /\ fs Cases.w_not_found = fs Cases.w_bare
  /\ ((Inference Demo.env = None
       /\ Cases.NOT_FOUND = IMPORT_FAILED
       /\ Cases.w_not_found = Cases.w_bare)
      \/ (exists new evs,
            Inference Demo.env = Some new
            /\ fs Cases.w_bare !! config_path Demo.env = None
            /\ Cases.NOT_FOUND
               = Exn "FileNotFoundError"
                   ("Config file not found at " ++ config_path Demo.env)
            /\ os_path_isabs (config_path Demo.env) = true
            /\ ext Cases.w_not_found = ext Cases.w_bare
            /\ trace Cases.w_not_found = (trace Cases.w_bare ++ evs)%list
            /\ count_ev is_construct evs = 0)
      \/ (exists new x evs,
            Inference Demo.env = Some new
            /\ is_Some (fs Cases.w_bare !! config_path Demo.env)
            /\ new (config_path Demo.env) (ext Cases.w_bare)
               = (Raise Cases.NOT_FOUND, x)
            /\ ext Cases.w_not_found = x
            /\ trace Cases.w_not_found = (trace Cases.w_bare ++ evs)%list
            /\ count_ev is_construct evs = 1)).
Proof.
  split; [vm_compute; reflexivity|].
  apply (load_model_failure_cases Demo.env Cases.w_bare Cases.NOT_FOUND
           Cases.w_not_found).
  vm_compute; reflexivity.
Defined.

Lemma failed_load_is_retried_witness :
  load_model Cases.env_flaky Demo.w0 = (Raise Cases.OOM, Cases.w_failed)
  /\ Inference Cases.env_flaky = Some Cases.flaky
  /\ is_Some (fs Cases.w_failed !! config_path Cases.env_flaky)
  /\ load_model Cases.env_flaky Cases.w_failed
     = (Ok Demo.config_path, Cases.w_retried)
  /\ exists x evs,
       Cases.flaky (config_path Cases.env_flaky) (ext Cases.w_failed)
       = (Ok Demo.config_path, x)
       /\ ext Cases.w_retried = x
       /\ trace Cases.w_retried = (trace Cases.w_failed ++ evs)%list
       /\ count_ev is_construct evs = 1
       /\ In (EvInference (config_path Cases.env_flaky) (Ok Demo.config_path))
            evs
       /\ model Cases.w_retried = Some Demo.config_path.
Proof.
  assert (H1 : load_model Cases.env_flaky Demo.w0
               = (Raise Cases.OOM, Cases.w_failed))
    by (vm_compute; reflexivity).
  assert (H2 : is_Some (fs Cases.w_failed !! config_path Cases.env_flaky))
    by (exists []; vm_compute; reflexivity).
  assert (H3 : load_model Cases.env_flaky Cases.w_failed
               = (Ok Demo.config_path, Cases.w_retried))
    by (vm_compute; reflexivity).
  split; [exact H1|]. split; [reflexivity|]. split; [exact H2|].
  split; [exact H3|].
  exact (failed_load_is_retried Cases.env_flaky Demo.w0 Cases.OOM
           Cases.w_failed Cases.flaky (Ok Demo.config_path) Cases.w_retried
           H1 eq_refl H2 H3).
Defined.

Lemma import_failure_fails_every_request_witness :
  Inference Cases.env_unimported = None
  /\ model Demo.w0 = None
  /\ Demo.good_job !! "input" = Some Demo.good_input
  /\ py_contains "image" Demo.good_input = Ok true
  /\ handler Cases.env_unimported Demo.good_job Demo.w0
     = (Ok {[ "error" := PStr "Could not import SAM3D Inference module." ]},
        after_traceback IMPORT_FAILED Demo.w0)
  /\ process Cases.env_unimported (Some Demo.gray) Demo.w0
     = (Raise (Exn "gradio.Error"
                 "Error processing image: Could not import SAM3D Inference module."),
        after_traceback IMPORT_FAILED Demo.w0).
Proof.
  split; [reflexivity|]. split; [reflexivity|].
  split; [vm_compute; reflexivity|]. split; [vm_compute; reflexivity|].
  apply (import_failure_fails_every_request Cases.env_unimported
           Demo.good_job Demo.good_input Demo.gray Demo.w0).
  - reflexivity.
  - reflexivity.
  - vm_compute; reflexivity.
  - vm_compute; reflexivity.
Defined.



Lemma handler_raises_iff_input_unusable_witness :
  handler Demo.env (Demo.job PNone) Demo.w0
  = (Raise (Exn "TypeError" "argument of type 'NoneType' is not iterable"),
     Demo.w0).
Proof.
  apply (handler_raises_iff_input_unusable Demo.env (Demo.job PNone) Demo.w0).
  split; [reflexivity|]. right. exists PNone.
  split; [vm_compute; reflexivity|]. split; [reflexivity|].
  split; reflexivity.
Defined.

Lemma undecodable_image_still_loads_model_witness :
  Cases.odd_job !! "input" = Some (PDict {[ "image" := PStr "A" ]})
  /\ py_contains "image" (PDict {[ "image" := PStr "A" ]}) = Ok true
  /\ py_getitem (PDict {[ "image" := PStr "A" ]}) "image" = Ok (PStr "A")
  /\ b64decode (PStr "A")
     = Raise (Exn "binascii.Error"
                "Invalid base64-encoded string: number of data characters (1) cannot be 1 more than a multiple of 4")
  /\ exists r w1 evs,
       load_model Demo.env Demo.w0 = (r, w1)
       /\ trace w1 = (trace Demo.w0 ++ evs)%list
       /\ forallb is_load_event evs = true
       /\ let shown :=
            match r with
            | Ok _ =>
                Exn "binascii.Error"
                  "Invalid base64-encoded string: number of data characters (1) cannot be 1 more than a multiple of 4"
            | Raise e' => e'
            end in
          handler Demo.env Cases.odd_job Demo.w0
          = (Ok {[ "error" := PStr (exn_str shown) ]},
             after_traceback shown w1).
Proof.
  split; [vm_compute; reflexivity|]. split; [vm_compute; reflexivity|].
  split; [vm_compute; reflexivity|]. split; [vm_compute; reflexivity|].
  apply (undecodable_image_still_loads_model Demo.env Cases.odd_job
           (PDict {[ "image" := PStr "A" ]})).
  - vm_compute; reflexivity.
  - vm_compute; reflexivity.
  - right. exists (PStr "A"). split; vm_compute; reflexivity.
Defined.

Lemma array_or_string_input_never_yields_ply_witness :
  Cases.text_job !! "input" = Some (PStr "my image")
  /\ py_contains "image" (PStr "my image") = Ok true
  /\ (exists e,
        decode_image Demo.env (PStr "my image") = Raise e
        /\ exn_class e = "TypeError")
  /\ exists msg,
       fst (handler Demo.env Cases.text_job Demo.w0)
       = Ok ({[ "error" := PStr msg ]} : gmap string pyval)
       /\ fs (snd (handler Demo.env Cases.text_job Demo.w0)) = fs Demo.w0.
Proof.
  split; [vm_compute; reflexivity|]. split; [vm_compute; reflexivity|].
  apply (array_or_string_input_never_yields_ply Demo.env Cases.text_job
           (PStr "my image") Demo.w0).
  - vm_compute; reflexivity.
  - right. exists "my image". reflexivity.
  - apply surjective_pairing.
Defined.

Lemma request_calls_only_the_global_model_witness :
  request_step Demo.env Demo.w0 Demo.w_process
  /\ exists evs,
       trace Demo.w_process = (trace Demo.w0 ++ evs)%list
       /\ count_ev is_construct evs <= 1
       /\ (is_Some (model Demo.w0) -> count_ev is_construct evs = 0)
       /\ forall m image mask seed r,
            In (EvCall m image mask seed r) evs ->
            model Demo.w_process = Some m
            /\ (forall m0, model Demo.w0 = Some m0 -> m = m0).
Proof.
  assert (H : request_step Demo.env Demo.w0 Demo.w_process).
  { left. exists (Some Demo.gray), (Ok (Some Demo.ply, Some Demo.ply)).
    vm_compute; reflexivity. }
  split; [exact H|].
  exact (request_calls_only_the_global_model Demo.env Demo.w0 Demo.w_process H).
Defined.

Lemma request_touches_only_its_own_file_witness :
  request_step Demo.env Demo.w0 Demo.w_handler
  /\ exists evs,
       trace Demo.w_handler = (trace Demo.w0 ++ evs)%list
       /\ (forall g path r,
             In (EvSavePly g path r) evs ->
             exists m image mask output run_id,
               In (EvCall m image mask 42 (Ok output)) evs
               /\ output_gs output = Ok g
               /\ In (EvUuid4 run_id) evs
               /\ path = ply_path Demo.env run_id)
       /\ (forall path content,
             In (EvRead path content) evs ->
             exists g, In (EvSavePly g path (Ok content)) evs)
       /\ (forall path,
             In (EvRemove path) evs ->
             exists content, In (EvRead path content) evs).
Proof.
  assert (H : request_step Demo.env Demo.w0 Demo.w_handler).
  { right. exists Demo.good_job, (Ok Cases.good_output).
    vm_compute; reflexivity. }
  split; [exact H|].
  exact (request_touches_only_its_own_file Demo.env Demo.w0 Demo.w_handler H).
Defined.

Lemma handler_ignores_characters_outside_base64_witness :
  is_ascii_str Cases.wrapped = true
  /\ significant Cases.wrapped = "yA=="
  /\ handler Demo.env
       (<["input" := PDict (<["image" := PStr Cases.wrapped]> ∅)]>
          (Demo.job PNone)) Demo.w0
     = handler Demo.env
         (<["input" := PDict (<["image" := PStr (significant Cases.wrapped)]> ∅)]>
            (Demo.job PNone)) Demo.w0.
Proof.
  split; [reflexivity|]. split; [reflexivity|].
  apply (handler_ignores_characters_outside_base64 Demo.env (Demo.job PNone)
           ∅ Cases.wrapped Demo.w0).
  reflexivity.
Defined.

Lemma model_is_built_once_for_all_requests_witness :
  (rtc (process_step Demo.env) Demo.w0 Cases.w_second
   \/ rtc (handler_step Demo.env) Demo.w0 Cases.w_second)
  /\ exists evs,
       trace Cases.w_second = (trace Demo.w0 ++ evs)%list
       /\ (forall m, model Demo.w0 = Some m -> model Cases.w_second = Some m)
       /\ count_ev is_built evs
          = match model Demo.w0, model Cases.w_second with
            | None, Some _ => 1
            | _, _ => 0
            end.
Proof.
  assert (H : rtc (process_step Demo.env) Demo.w0 Cases.w_second
              \/ rtc (handler_step Demo.env) Demo.w0 Cases.w_second).
  { right. apply (rtc_l _ _ Demo.w_handler).
    - exists Demo.good_job, (Ok Cases.good_output).
      vm_compute; reflexivity.
    - apply rtc_once.
      exists Demo.good_job,
        (fst (handler Demo.env Demo.good_job Demo.w_handler)).
      apply surjective_pairing. }
  split; [exact H|].
  exact (model_is_built_once_for_all_requests Demo.env Demo.w0 Cases.w_second
           H).
Defined.

Lemma clone_only_when_repository_is_missing_witness :
  Startup.module_body Cases.host_offline Demo.env Startup.handler_hint Cases.b0
  = (Raise Cases.NO_GIT, Cases.b_offline)
  /\ exists evs,
       Startup.console Cases.b_offline = (Startup.console Cases.b0 ++ evs)%list
       /\ List.filter Startup.is_clone evs
          = (if Startup.path_exists Cases.host_offline REPO_DIR
                  (Startup.machine Cases.b0)
             then []
             else [Startup.BClone Startup.REPO_URL REPO_DIR
                     (fst (Startup.git_clone Cases.host_offline
                             Startup.REPO_URL REPO_DIR
                             (Startup.machine Cases.b0)))])
       /\ (forall url dir e,
             In (Startup.BClone url dir (Raise e)) evs ->
             (Raise Cases.NO_GIT : Res (option (@Startup.Ctor nat string)))
             = Raise e
             /\ Startup.sys_path Cases.b_offline = Startup.sys_path Cases.b0
             /\ List.filter Startup.is_download evs = []
             /\ List.filter Startup.is_import evs = []).
Proof.
  split; [vm_compute; reflexivity|].
  apply (clone_only_when_repository_is_missing Cases.host_offline Demo.env
           Startup.handler_hint Cases.b0 (Raise Cases.NO_GIT) Cases.b_offline).
  vm_compute; reflexivity.
Defined.

Lemma checkpoint_download_failure_is_not_fatal_witness :
  Startup.module_body Cases.host Demo.env Startup.handler_hint Cases.b0
  = (Ok (Some Cases.flaky), Cases.b_started)
  /\ exists evs,
       Startup.console Cases.b_started = (Startup.console Cases.b0 ++ evs)%list
       /\ (forall e,
             Ok (Some Cases.flaky) = Raise e ->
             In (Startup.BClone Startup.REPO_URL REPO_DIR (Raise e)) evs
             \/ exists path,
                  In (Startup.BImport path (Raise e)) evs
                  /\ Startup.is_ImportError Cases.host e = false)
       /\ (forall p,
             In (Startup.BMakedirs p (Ok tt)) evs ->
             exists rd,
               In (Startup.BDownload Startup.CHECKPOINT_REPO
                     (os_path_join REPO_DIR CHECKPOINT_DIR) rd) evs)
       /\ (forall ev e,
             In ev evs ->
             (exists p, ev = Startup.BMakedirs p (Raise e))
             \/ (exists repo_id p, ev = Startup.BDownload repo_id p (Raise e)) ->
             In (Startup.BPrint
                   ("Error downloading checkpoints: " ++ exn_str e)) evs
             /\ In (Startup.BPrint Startup.handler_hint) evs
             /\ List.filter Startup.is_import evs <> []).
Proof.
  split; [vm_compute; reflexivity|].
  apply (checkpoint_download_failure_is_not_fatal Cases.host Demo.env
           Startup.handler_hint Cases.b0 (Ok (Some Cases.flaky))
           Cases.b_started).
  vm_compute; reflexivity.
Defined.

Lemma Inference_is_None_iff_both_imports_fail_witness :
  Startup.module_body Cases.host_broken Demo.env Startup.app_hint Cases.b0
  = (Ok None, Cases.b_broken)
  /\ exists evs,
       Startup.console Cases.b_broken = (Startup.console Cases.b0 ++ evs)%list
       /\ length (List.filter Startup.is_import evs) <= 2
       /\ ((Ok None : Res (option (@Startup.Ctor nat string))) = Ok None <->
           exists p1 e1 p2 e2,
             List.filter Startup.is_import evs
             = [Startup.BImport p1 (Raise e1); Startup.BImport p2 (Raise e2)]
             /\ Startup.is_ImportError Cases.host_broken e1 = true
             /\ Startup.is_ImportError Cases.host_broken e2 = true)
       /\ (forall Inference,
             (Ok None : Res (option (@Startup.Ctor nat string)))
             = Ok (Some Inference) <->
             exists p, last (List.filter Startup.is_import evs)
                       = Some (Startup.BImport p (Ok Inference))).
Proof.
  split; [vm_compute; reflexivity|].
  apply (Inference_is_None_iff_both_imports_fail Cases.host_broken Demo.env
           Startup.app_hint Cases.b0 (Ok None) Cases.b_broken).
  vm_compute; reflexivity.
Defined.

Lemma retry_import_searches_no_new_directory_witness :
  Startup.module_body Cases.host_broken Demo.env Startup.handler_hint Cases.b0
  = (Ok None,
     snd (Startup.module_body Cases.host_broken Demo.env Startup.handler_hint
            Cases.b0))
  /\ exists evs,
       Startup.console
         (snd (Startup.module_body Cases.host_broken Demo.env
                 Startup.handler_hint Cases.b0))
       = (Startup.console Cases.b0 ++ evs)%list
       /\ forall p1 r1 rest,
            List.filter Startup.is_import evs
            = Startup.BImport p1 r1 :: rest ->
            p1 = (Startup.sys_path Cases.b0 ++ Startup.repo_dirs Demo.env)%list
            /\ forall p2 r2,
                 In (Startup.BImport p2 r2) rest ->
                 exists h left h',
                   Startup.import_Inference Cases.host_broken p1 h
                   = (r1, (left, h'))
                   /\ p2 = (left ++ Startup.repo_dirs Demo.env)%list.
Proof.
  split; [vm_compute; reflexivity|].
  apply (retry_import_searches_no_new_directory Cases.host_broken Demo.env
           Startup.handler_hint Cases.b0 (Ok None)).
  vm_compute; reflexivity.
Defined.
